(** * node-flydrive: the Aliyun OSS storage drivers

    A shallow embedding of [src/Drivers/AliyunOSS.ts] (the typed adapter that
    extends [Storage]) and of [src/Drivers/Aliyun.js] (the legacy driver),
    together with the properties the specification states about them.

    Both drivers are thin layers over the [ali-oss] client.  The client is an
    external collaborator: it is an interface here ([Sdk]), the drivers are
    written against it, and an in-memory instance ([Mock]) is used to run them
    on concrete inputs. *)

From Stdlib Require Import ZArith Ascii.
From stdpp Require Import base option strings gmap list pretty.

Set Default Proof Using "Type".
Open Scope Z_scope.
Open Scope string_scope.

(** ** JavaScript values *)

(** A Node.js [Buffer]. *)
Abbreviation Buffer := (list Byte.byte).

(** The primitive values that travel in configuration and option objects. *)
Inductive JsVal : Type :=
| VUndefined
| VBool (b : bool)
| VNum (n : Z)
| VStr (s : string).

#[global] Instance JsVal_eq_dec : EqDecision JsVal.
Proof. solve_decision. Defined.

(** A plain object literal: own property names to values. *)
Abbreviation Obj := (gmap string JsVal).

(** [if (v)] and [v || w]. *)
Definition truthy (v : JsVal) : bool :=
  match v with
  | VUndefined => false
  | VBool b => b
  | VNum n => negb (Z.eqb n 0)
  | VStr s => negb (String.eqb s "")
  end.

(** What a template literal [`${v}`] renders. *)
Definition ToString (v : JsVal) : string :=
  match v with
  | VUndefined => "undefined"
  | VBool true => "true"
  | VBool false => "false"
  | VNum n => pretty n
  | VStr s => s
  end.

(** [o.k]: reading a property that is not there gives [undefined]. *)
Definition prop (o : Obj) (k : string) : JsVal := default VUndefined (o !! k).

(** [Object.assign(target, source)] and [{...target, ...source}]: the
    properties of [source] win. *)
Definition assign (target source : Obj) : Obj := source ∪ target.

(** An [Error] object as the client or the runtime throws it: the driver
    reads [name] and [status]. *)
Record Error : Type := {
  name : string;
  status : option Z;
  message : string;
}.

#[global] Instance Error_eq_dec : EqDecision Error.
Proof. solve_decision. Defined.

(** A readable stream, by the chunks it still has to deliver. *)
Record Readable : Type := { chunks : list Buffer }.

(** ** Completions and the state monad of a driver *)

(** How a call ends: a value, or a thrown one. *)
Inductive Completion (E A : Type) : Type :=
| Return (a : A)
| Throw (e : E).
Arguments Return {E A} a.
Arguments Throw {E A} e.

Definition M (S E A : Type) : Type := S → Completion E A * S.

#[global] Instance M_ret {S E} : MRet (M S E) := λ A a s, (Return a, s).

#[global] Instance M_bind {S E} : MBind (M S E) := λ A B f m s,
  match m s with
  | (Return a, s') => f a s'
  | (Throw e, s') => (Throw e, s')
  end.

Definition throw {S E A} (e : E) : M S E A := λ s, (Throw e, s).

(** [try { body } catch (e) { handler }] *)
Definition tryCatch {S E E' A} (body : M S E A) (handler : E → M S E' A) : M S E' A :=
  λ s,
    match body s with
    | (Return a, s') => (Return a, s')
    | (Throw e, s') => handler e s'
    end.

Definition gets {S E A} (f : S → A) : M S E A := λ s, (Return (f s), s).
Definition modify {S E} (f : S → S) : M S E unit := λ s, (Return tt, f s).

Definition returns {E A} (c : Completion E A) : bool :=
  match c with Return _ => true | Throw _ => false end.

Definition raises {E A} (c : Completion E A) : bool := negb (returns c).

(** ** The Node.js runtime *)

(** The encodings [Buffer.prototype.toString] knows. *)
Inductive Encoding : Type :=
| ops_utf8 | ops_ucs2 | ops_utf16le | ops_latin1 | ops_ascii
| ops_base64 | ops_base64url | ops_hex.

Definition encodingOps : list (string * Encoding) :=
  [ ("utf8", ops_utf8); ("utf-8", ops_utf8); ("ucs2", ops_ucs2);
    ("ucs-2", ops_ucs2); ("utf16le", ops_utf16le); ("utf-16le", ops_utf16le);
    ("latin1", ops_latin1); ("binary", ops_latin1); ("base64", ops_base64);
    ("base64url", ops_base64url); ("hex", ops_hex); ("ascii", ops_ascii) ].

Definition lower (c : Ascii.ascii) : Ascii.ascii :=
  let n := Ascii.N_of_ascii c in
  if (65 <=? n)%N && (n <=? 90)%N then Ascii.ascii_of_N (n + 32) else c.

Fixpoint toLowerCase (s : string) : string :=
  match s with
  | EmptyString => EmptyString
  | String c s' => String (lower c) (toLowerCase s')
  end.

(** Node's lookup of an encoding name: names are matched without regard to
    case, anything else is not an encoding. *)
Definition getEncodingOps (encoding : string) : option Encoding :=
  snd <$> find (λ p, String.eqb (fst p) (toLowerCase encoding)) encodingOps.

(** What the driver takes from the runtime without looking inside: the
    decoders behind [Buffer.prototype.toString], which make the empty string
    of no bytes, and [Number(...)] and [new Date(...)] on a header that may
    be missing. *)
Class Node : Type := {
  slice : Encoding → Buffer → string;
  slice_empty : ∀ ops, slice ops [] = "";
  number : Type;
  Number : option string → number;
  date : Type;
  Date : option string → date;
}.

(** [buf.toString(encoding)] with an encoding given: a buffer of no bytes
    gives the empty string before the encoding is looked at; otherwise a
    name that is not an encoding, the empty name included, throws a
    [TypeError] (ERR_UNKNOWN_ENCODING). *)
Definition toString `{Node} (buf : Buffer) (encoding : string) : Completion Error string :=
  match buf with
  | [] => Return ""
  | _ =>
      match getEncodingOps encoding with
      | Some ops => Return (slice ops buf)
      | None => Throw {| name := "TypeError"; status := None;
                         message := "Unknown encoding: " +:+ encoding |}
      end
  end.

(** ** The ali-oss client *)

(** A client instance: [new OSS(config)] keeps the configuration it was
    given; [oss_id] tells instances apart. *)
Record OSS : Type := {
  oss_id : nat;
  oss_config : Obj;
}.

Record NormalSuccessResponse : Type := {
  res_status : Z;
  headers : gmap string string;
}.

Record HeadObjectResult : Type := { head_res : NormalSuccessResponse }.

(** The result of [get].  Its [content] is a Buffer when the object is read
    into memory, which is how both drivers call [get]: [get_content] is that
    Buffer, as the adapter's type assertion takes it.  The legacy driver
    checks at run time: [get_other] is the content when it is something
    else. *)
Record GetObjectResult : Type := {
  get_content : Buffer;
  get_other : option JsVal;
  get_res : NormalSuccessResponse;
}.

Record GetStreamResult : Type := { stream : Readable; stream_res : NormalSuccessResponse }.
Record PutObjectResult : Type := { put_name : string; put_res : NormalSuccessResponse }.
Record DeleteResult : Type := { delete_res : NormalSuccessResponse }.
Record CopyAndPutMetaResult : Type := { copy_res : NormalSuccessResponse }.

(** [put] takes a buffer, a stream, or the path of a local file. *)
Inductive PutContent : Type :=
| PutBuffer (b : Buffer)
| PutReadable (r : Readable)
| PutPath (p : string).

(** One call of a client method that a driver awaits, with the arguments as
    the driver passed them.  [None] is an argument left out.
    ([generateObjectUrl] is not awaited: it only formats the client's
    options.) *)
Inductive Call : Type :=
| CallHead (client : OSS) (name : string) (options : option Obj)
| CallGet (client : OSS) (name : string)
| CallPut (client : OSS) (name : string) (file : PutContent) (options : option Obj)
| CallPutStream (client : OSS) (name : string) (file : Readable) (options : option Obj)
| CallDelete (client : OSS) (name : string) (options : option Obj)
| CallCopy (client : OSS) (name sourceName : string) (options : option Obj)
| CallGetStream (client : OSS) (name : string) (options : option Obj)
| CallSignatureUrl (client : OSS) (name : string) (params : Obj).

(** The client's methods, [oss.head] and so on.  The ones that talk to the
    service act on its state [Remote]; [signatureUrl] and [generateObjectUrl]
    compute from the client's options alone, and [initOptions] is how the
    constructor turns a configuration into [client.options]. *)
Module oss.
Class Sdk : Type := {
  Remote : Type;
  initOptions : Obj → Obj;
  head : OSS → string → option Obj → Remote → Completion Error HeadObjectResult * Remote;
  get : OSS → string → Remote → Completion Error GetObjectResult * Remote;
  put : OSS → string → PutContent → option Obj → Remote → Completion Error PutObjectResult * Remote;
  putStream : OSS → string → Readable → option Obj → Remote → Completion Error PutObjectResult * Remote;
  delete : OSS → string → option Obj → Remote → Completion Error DeleteResult * Remote;
  copy : OSS → string → string → option Obj → Remote → Completion Error CopyAndPutMetaResult * Remote;
  getStream : OSS → string → option Obj → Remote → Completion Error GetStreamResult * Remote;
  signatureUrl : OSS → string → Obj → Completion Error string;
  generateObjectUrl : OSS → string → string;
}.
End oss.
Abbreviation Sdk := oss.Sdk.
Abbreviation Remote := oss.Remote.

(** [client.options] *)
Definition options `{Sdk} (client : OSS) : Obj := oss.initOptions (oss_config client).

(** Everything outside a driver object: the service, the calls the drivers
    have awaited so far, and how many clients have been constructed. *)
Record World `{Sdk} : Type := {
  remote : Remote;
  calls : list Call;
  clients : nat;
}.

(** A driver object [this] of class [O] in its world. *)
Record State `{Sdk} (O : Type) : Type := {
  this : O;
  world : World;
}.
Arguments this {_ O} s.
Arguments world {_ O} s.
Arguments Build_State {_ O} this world.

(** Constructing a client takes the next identity. *)
Definition construct `{Sdk} (config : Obj) (w : World) : OSS * World :=
  ({| oss_id := clients w; oss_config := config |},
   {| remote := remote w; calls := calls w; clients := S (clients w) |}).

Section Client.
Context `{Sdk} {O : Type}.

(** The state once call [c] has been made and has left the service in
    [rem]. *)
Definition after (c : Call) (rem : Remote) (s : State O) : State O :=
  {| this := this s;
     world := {| remote := rem; calls := calls (world s) ++ [c];
                 clients := clients (world s) |} |}.

(** [await client.method(args)]: the call is recorded and acts on the
    service. *)
Definition request {A} (c : Call) (f : Remote → Completion Error A * Remote) : M (State O) Error A :=
  λ s, let '(r, rem) := f (remote (world s)) in (r, after c rem s).

(** A client method that does not reach the service. *)
Definition local {A} (c : Call) (r : Completion Error A) : M (State O) Error A :=
  request c (λ rem, (r, rem)).

(** [new OSS(config)] *)
Definition new_OSS {E} (config : Obj) : M (State O) E OSS :=
  λ s,
    let '(client, w) := construct config (world s) in
    (Return client, {| this := this s; world := w |}).
End Client.
Arguments after : simpl never.

(** ** Exceptions and response envelopes *)

(** Modelled from the spec: the classes of [../Exceptions] are not among the
    sources; the driver constructs [new FileNotFound(err, path)] and
    [new UnknownException(err, err.name, path)], which keep the cause, the
    code and the path they are given. *)
Inductive Exception : Type :=
| FileNotFound (err : Error) (path : string)
| UnknownException (err : Error) (errorCode : string) (path : string).

(** What a driver method can throw: one of the exceptions above, or an
    [Error] of the client or the runtime that nothing caught. *)
Inductive Thrown : Type :=
| Wrapped (x : Exception)
| Native (e : Error).

(** The [raw] field of an envelope: whatever the client gave back. *)
Inductive Raw : Type :=
| RawUndefined
| RawHead (result : HeadObjectResult)
| RawGet (result : GetObjectResult)
| RawPut (result : PutObjectResult)
| RawDelete (result : DeleteResult)
| RawCopy (result : CopyAndPutMetaResult)
| RawString (result : string)
| RawError (e : Error).

(** Modelled from the spec: the interfaces of [../types] are not among the
    sources; the fields are the ones the driver's object literals have. *)
Module Response.
Record t : Type := { raw : Raw }.
End Response.

Module ExistsResponse.
Record t : Type := { exists_ : bool; raw : Raw }.
End ExistsResponse.

Module ContentResponse.
Record t (T : Type) : Type := { content : T; raw : Raw }.
Arguments content {T} _.
Arguments raw {T} _.
Arguments Build_t {T} _ _.
End ContentResponse.

Module SignedUrlResponse.
Record t : Type := { signedUrl : string; raw : Raw }.
End SignedUrlResponse.

Module StatResponse.
Record t `{Node} : Type := { size : number; modified : date; raw : Raw }.
End StatResponse.

(** An error that nothing catches leaves the method as it is. *)
Definition uncaught {S A} (m : M S Error A) : M S Thrown A :=
  tryCatch m (λ e, throw (Native e)).

(** [handleError(err, path)] *)
Definition handleError {S A} (err : Error) (path : string) : M S Thrown A :=
  if String.eqb (name err) "NoSuchKeyError"
  then throw (Wrapped (FileNotFound err path))
  else throw (Wrapped (UnknownException err (name err) path)).

(** ** [AliyunOSS], the typed adapter (AliyunOSS.ts) *)

Module AliyunOSSConfig.
Record t : Type := {
  key : string;
  secret : string;
  bucket : string;
  endpoint : option string;
  region : option string;
  internal : option bool;
  secure : option bool;
}.

(** The own properties of a configuration object, as [{...config}] copies
    them: an optional property that is left out is not there. *)
Definition spread (config : t) : Obj :=
  list_to_map
    ([ ("key", VStr (key config)); ("secret", VStr (secret config));
       ("bucket", VStr (bucket config)) ]
     ++ option_list (pair "endpoint" ∘ VStr <$> endpoint config)
     ++ option_list (pair "region" ∘ VStr <$> region config)
     ++ option_list (pair "internal" ∘ VBool <$> internal config)
     ++ option_list (pair "secure" ∘ VBool <$> secure config)).
End AliyunOSSConfig.

Module AliyunOSS.
(** The fields [$driver], [$config] and [$bucket]. *)
Record t : Type := {
  _driver : OSS;
  _config : Obj;
  _bucket : string;
}.

Section Methods.
Context `{Sdk} `{Node}.

Definition constructor (config : AliyunOSSConfig.t) (w : World) : t * World :=
  let configParams :=
    assign {[ "accessKeyId" := VStr (AliyunOSSConfig.key config);
              "accessKeySecret" := VStr (AliyunOSSConfig.secret config) ]}
           (AliyunOSSConfig.spread config) in
  let '(client, w') := construct configParams w in
  ({| _driver := client; _config := configParams;
      _bucket := AliyunOSSConfig.bucket config |}, w').

(** [this.$driver] *)
Definition driver_ {E} : M (State t) E OSS := gets (λ s, _driver (this s)).

(** Use a different bucket at runtime: returns a new instance of OSS. *)
Definition bucket (bucket : string) : M (State t) Thrown OSS :=
  config ← gets (λ s, _config (this s));
  new_OSS (assign config {[ "bucket" := VStr bucket ]}).

(** Copy a file to a location. *)
Definition copy (src dest : string) (options : option Obj) : M (State t) Thrown Response.t :=
  tryCatch
    (driver ← driver_;
     result ← request (CallCopy driver dest src options) (oss.copy driver dest src options);
     mret {| Response.raw := RawCopy result |})
    (λ e, handleError e src).

(** Delete existing file. *)
Definition delete (location : string) (options : option Obj) : M (State t) Thrown Response.t :=
  tryCatch
    (driver ← driver_;
     result ← request (CallDelete driver location options) (oss.delete driver location options);
     mret {| Response.raw := RawDelete result |})
    (λ e, handleError e location).

(** Returns the driver. *)
Definition driver : M (State t) Thrown OSS := driver_.

(** Determines if a file or folder already exists. *)
Definition exists_ (location : string) (options : option Obj) : M (State t) Thrown ExistsResponse.t :=
  tryCatch
    (driver ← driver_;
     result ← request (CallHead driver location options) (oss.head driver location options);
     mret {| ExistsResponse.exists_ := true; ExistsResponse.raw := RawHead result |})
    (λ e,
       if decide (status e = Some 404)
       then mret {| ExistsResponse.exists_ := false; ExistsResponse.raw := RawError e |}
       else handleError e location).

(** Returns the file contents as Buffer. *)
Definition getBuffer (location : string) : M (State t) Thrown (ContentResponse.t Buffer) :=
  tryCatch
    (driver ← driver_;
     result ← request (CallGet driver location) (oss.get driver location);
     let body := get_content result in
     mret {| ContentResponse.content := body; ContentResponse.raw := RawGet result |})
    (λ e, handleError e location).

(** Returns the file contents. *)
Definition get (location : string) (encoding : option string) : M (State t) Thrown (ContentResponse.t string) :=
  let encoding := default "utf-8" encoding in
  bufferResult ← getBuffer location;
  content ← uncaught (λ s, (toString (ContentResponse.content bufferResult) encoding, s));
  mret {| ContentResponse.content := content;
          ContentResponse.raw := ContentResponse.raw bufferResult |}.

(** [const { expiry = 900 } = options;
     const params = Object.assign({ expires: expiry }, options);] *)
Definition signedUrlParams (options : Obj) : Obj :=
  let expiry :=
    match prop options "expiry" with
    | VUndefined => VNum 900
    | v => v
    end in
  assign {[ "expires" := expiry ]} options.

(** Returns signed url for an existing file. *)
Definition getSignedUrl (location : string) (options : option Obj) : M (State t) Thrown SignedUrlResponse.t :=
  let options := default ∅ options in
  let params := signedUrlParams options in
  tryCatch
    (driver ← driver_;
     result ← local (CallSignatureUrl driver location params) (oss.signatureUrl driver location params);
     mret {| SignedUrlResponse.signedUrl := result; SignedUrlResponse.raw := RawString result |})
    (λ e, handleError e location).

(** Returns file's size and modification date. *)
Definition getStat (location : string) : M (State t) Thrown StatResponse.t :=
  tryCatch
    (driver ← driver_;
     result ← request (CallHead driver location None) (oss.head driver location None);
     mret {| StatResponse.size := Number (headers (head_res result) !! "content-length");
             StatResponse.modified := Date (headers (head_res result) !! "last-modified");
             StatResponse.raw := RawHead result |})
    (λ e, handleError e location).

(** Returns the stream for the given file. *)
Definition getStream (location : string) : M (State t) Thrown Readable :=
  driver ← driver_;
  result ← uncaught (request (CallGetStream driver location None) (oss.getStream driver location None));
  mret (stream result).

(** Returns url for a given key. *)
Definition getUrl (location : string) : M (State t) Thrown string :=
  driver ← driver_;
  mret (oss.generateObjectUrl driver location).

(** Moves file from one location to another.  This method will call
    [copy] and [delete] under the hood. *)
Definition move (src dest : string) : M (State t) Thrown Response.t :=
  _ ← copy src dest None;
  _ ← delete src None;
  mret {| Response.raw := RawUndefined |}.

(** Creates a new file. *)
Definition put (location : string) (content : PutContent) (options : option Obj) : M (State t) Thrown Response.t :=
  tryCatch
    (driver ← driver_;
     result ← request (CallPut driver location content options) (oss.put driver location content options);
     mret {| Response.raw := RawPut result |})
    (λ e, handleError e location).
End Methods.
End AliyunOSS.

(** ** [Aliyun], the legacy driver (Aliyun.js) *)

(** The [resetable] package (a dependency, not part of this repository) the
    legacy driver keeps its bucket in: a value that can be overridden with
    [set] and goes back to the initial one when it is cleared; [pull] reads
    the value and clears it. *)
Module Resetable.
Record t : Type := {
  _initialValue : JsVal;
  _val : JsVal;
}.

Definition new (initialValue : JsVal) : t :=
  {| _initialValue := initialValue; _val := initialValue |}.

Definition get (r : t) : JsVal := _val r.

Definition set (val : JsVal) (r : t) : t :=
  {| _initialValue := _initialValue r; _val := val |}.

Definition clear (r : t) : t :=
  {| _initialValue := _initialValue r; _val := _initialValue r |}.

Definition pull (r : t) : JsVal * t := (get r, clear r).
End Resetable.

Module Aliyun.
(** The fields [oss] and [_bucket]. *)
Record t : Type := {
  oss : OSS;
  _bucket : Resetable.t;
}.

Section Methods.
Context `{Sdk}.

Definition constructor (config : Obj) (w : World) : t * World :=
  let '(client, w') :=
    construct
      (assign
         (assign ∅ {[ "accessKeyId" := prop config "key";
                      "accessKeySecret" := prop config "secret";
                      "region" := prop config "region";
                      "secure" := prop config "secure" ]})
         config) w in
  ({| oss := client; _bucket := Resetable.new (prop config "bucket") |}, w').

(** [this.oss] *)
Definition this_oss {E} : M (State t) E OSS := gets (λ s, oss (this s)).

(** [this._bucket.set(bucket)] *)
Definition bucket_set {E} (bucket : JsVal) : M (State t) E unit :=
  modify (λ s, {| this := {| oss := oss (this s);
                             _bucket := Resetable.set bucket (_bucket (this s)) |};
                  world := world s |}).

(** [this._bucket.pull()] *)
Definition bucket_pull {E} : M (State t) E JsVal :=
  λ s,
    let '(val, r) := Resetable.pull (_bucket (this s)) in
    (Return val, {| this := {| oss := oss (this s); _bucket := r |};
                    world := world s |}).

(** Use a different bucket at runtime.  Chainable: the method returns
    [this], the receiver as it is after the call. *)
Definition bucket (bucket : JsVal) : M (State t) Thrown t :=
  _ ← bucket_set bucket;
  gets this.

(** Finds if a file exists or not. *)
Definition exists_ (location : string) (params : option Obj) : M (State t) Thrown bool :=
  oss ← this_oss;
  _ ← uncaught (request (CallHead oss location params) (oss.head oss location params));
  mret true.

(** Create a new file from string or buffer. *)
Definition put (location : string) (content : PutContent) (params : option Obj) : M (State t) Thrown PutObjectResult :=
  oss ← this_oss;
  response ← uncaught (request (CallPut oss location content params) (oss.put oss location content params));
  mret response.

(** Remove a file. *)
Definition delete (location : string) (params : option Obj) : M (State t) Thrown bool :=
  let params := Some (default ∅ params) in
  oss ← this_oss;
  _ ← uncaught (request (CallDelete oss location params) (oss.delete oss location params));
  mret true.

(** [Error(content)]: the message is the content as a string, and empty
    for [undefined]. *)
Definition Error_ (content : JsVal) : Error :=
  {| name := "Error"; status := None;
     message := match content with VUndefined => "" | _ => ToString content end |}.

(** Returns contents for a given file: the content when it is a Buffer,
    and otherwise [throw Error(content)]. *)
Definition get (location : string) : M (State t) Thrown Buffer :=
  oss ← this_oss;
  response ← uncaught (request (CallGet oss location) (oss.get oss location));
  match get_other response with
  | None => mret (get_content response)
  | Some content => throw (Native (Error_ content))
  end.

(** Returns the stream for the given file. *)
Definition getStream (location : string) (params : option Obj) : M (State t) Thrown Readable :=
  let params := Some (default ∅ params) in
  oss ← this_oss;
  result ← uncaught (request (CallGetStream oss location params) (oss.getStream oss location params));
  mret (stream result).

(** Puts a stream. *)
Definition putStream (location : string) (file : Readable) (params : option Obj) : M (State t) Thrown PutObjectResult :=
  let params := Some (default ∅ params) in
  oss ← this_oss;
  response ← uncaught (request (CallPutStream oss location file params) (oss.putStream oss location file params));
  mret response.

(** [`${protocol}${bucket}.${region}.aliyuncs.com/${location}`] *)
Definition url (options : Obj) (bucket : JsVal) (location : string) : string :=
  let secure := prop options "secure" in
  let region := prop options "region" in
  let protocol := if truthy secure then "https://" else "http://" in
  protocol +:+ ToString bucket +:+ "." +:+ ToString region
    +:+ ".aliyuncs.com/" +:+ location.

(** Returns url for a given key.  An argument left out is [undefined]. *)
Definition getUrl (location : string) (bucket : JsVal) : M (State t) Thrown string :=
  bucket ← (if truthy bucket then mret bucket else bucket_pull);
  oss ← this_oss;
  mret (url (options oss) bucket location).

(** Copy file from one location to another within or accross oss
    buckets. *)
Definition copy (src dest : string) (destBucket : JsVal) (params : option Obj) : M (State t) Thrown string :=
  bucket ← bucket_pull;
  let combinedDest := "/" +:+ ToString bucket +:+ "/" +:+ src in
  oss ← this_oss;
  _ ← uncaught (request (CallCopy oss dest combinedDest None) (oss.copy oss dest combinedDest None));
  getUrl dest destBucket.

(** Moves file from one location to another.  This method will call
    [copy] and [delete] under the hood. *)
Definition move (src dest : string) (destBucket : JsVal) (params : option Obj) : M (State t) Thrown string :=
  let params := Some (default ∅ params) in
  url ← copy src dest destBucket params;
  _ ← delete src None;
  mret url.
End Methods.
End Aliyun.

(** ** An in-memory client to run the drivers on *)

Module Mock.
(** One bucket: the stored objects, and the keys the caller may not
    delete. *)
Record Store : Type := {
  objects : gmap string Buffer;
  locked : gset string;
}.

Definition NoSuchKey : Error :=
  {| name := "NoSuchKeyError"; status := Some 404; message := "Object not exists" |}.

Definition AccessDenied : Error :=
  {| name := "AccessDeniedError"; status := Some 403; message := "AccessDenied" |}.

Definition NoSuchFile : Error :=
  {| name := "Error"; status := None; message := "ENOENT" |}.

Definition ok (status : Z) (b : Buffer) : NormalSuccessResponse :=
  {| res_status := status;
     headers := {[ "content-length" := pretty (length b) ]} |}.

Definition fetch {A} (name : string) (k : Buffer → A) (st : Store) : Completion Error A * Store :=
  match objects st !! name with
  | Some b => (Return (k b), st)
  | None => (Throw NoSuchKey, st)
  end.

Definition store (name : string) (b : Buffer) (st : Store) : Completion Error PutObjectResult * Store :=
  (Return {| put_name := name; put_res := ok 200 b |},
   {| objects := <[name := b]> (objects st); locked := locked st |}).

Fixpoint after_slash (s : string) : string :=
  match s with
  | EmptyString => EmptyString
  | String "/"%char rest => rest
  | String _ rest => after_slash rest
  end.

(** A source name that starts with [/] names its bucket first. *)
Definition sourceKey (sourceName : string) : string :=
  match sourceName with
  | String "/"%char rest => after_slash rest
  | _ => sourceName
  end.

#[export] Instance sdk : Sdk := {|
  oss.Remote := Store;
  oss.initOptions config :=
    assign {[ "region" := VStr "oss-cn-hangzhou"; "secure" := VBool false ]} config;
  oss.head _ name _ := fetch name (λ b, {| head_res := ok 200 b |});
  oss.get _ name :=
    fetch name (λ b, {| get_content := b; get_other := None; get_res := ok 200 b |});
  oss.put _ name file _ st :=
    match file with
    | PutBuffer b => store name b st
    | PutReadable r => store name (concat (chunks r)) st
    | PutPath _ => (Throw NoSuchFile, st)
    end;
  oss.putStream _ name file _ := store name (concat (chunks file));
  oss.delete _ name _ st :=
    if decide (name ∈ locked st) then (Throw AccessDenied, st)
    else (Return {| delete_res := ok 204 [] |},
          {| objects := base.delete name (objects st); locked := locked st |});
  oss.copy _ name sourceName _ st :=
    match objects st !! sourceKey sourceName with
    | Some b => (Return {| copy_res := ok 200 [] |},
                 {| objects := <[name := b]> (objects st); locked := locked st |})
    | None => (Throw NoSuchKey, st)
    end;
  oss.getStream _ name _ :=
    fetch name (λ b, {| stream := {| chunks := [b] |}; stream_res := ok 200 b |});
  oss.signatureUrl client name params :=
    Return ("http://oss.example/" +:+ name +:+ "?Expires=" +:+ ToString (prop params "expires"));
  oss.generateObjectUrl client name :=
    "http://" +:+ ToString (prop (oss_config client) "bucket") +:+ ".oss.example/" +:+ name;
|}.

#[export] Instance node : Node := {|
  slice _ b := String.string_of_list_byte b;
  slice_empty _ := eq_refl;
  number := option string;
  Number h := h;
  date := option string;
  Date h := h;
|}.

Definition config : AliyunOSSConfig.t :=
  {| AliyunOSSConfig.key := "key"; AliyunOSSConfig.secret := "secret";
     AliyunOSSConfig.bucket := "media"; AliyunOSSConfig.endpoint := None;
     AliyunOSSConfig.region := Some "oss-cn-hangzhou";
     AliyunOSSConfig.internal := Some false; AliyunOSSConfig.secure := Some false |}.

(** A service that holds [folder/test.txt] (the bytes of "test-data") and
    a locked [pinned.txt], and no client yet. *)
Definition world0 : World :=
  {| remote := {| objects := {[ "folder/test.txt" := String.list_byte_of_string "test-data";
                                "pinned.txt" := String.list_byte_of_string "keep" ]};
                  locked := {[ "pinned.txt" ]} |};
     calls := [];
     clients := 0 |}.

(** [new AliyunOSS(config)] *)
Definition adapter : State AliyunOSS.t :=
  let '(this, w) := AliyunOSS.constructor config world0 in
  {| this := this; world := w |}.

(** [new Aliyun(config)] *)
Definition legacy : State Aliyun.t :=
  let '(this, w) := Aliyun.constructor (AliyunOSSConfig.spread config) world0 in
  {| this := this; world := w |}.
End Mock.

(** ** How methods end *)

(** The exception [handleError] makes of a client error: it keeps the error
    as its cause, and an unclassified one also keeps the error's name as its
    code. *)
Definition taxonomy (err : Error) (path : string) : Exception :=
  if String.eqb (name err) "NoSuchKeyError" then FileNotFound err path
  else UnknownException err (name err) path.

(** A guarded client call: the result goes into an envelope, an error into
    the taxonomy. *)
Definition settle {A B} (k : A → B) (path : string) (c : Completion Error A) : Completion Thrown B :=
  match c with
  | Return a => Return (k a)
  | Throw e => Throw (Wrapped (taxonomy e path))
  end.

(** An unguarded client call: an error leaves as it came. *)
Definition propagate {A B} (k : A → B) (c : Completion Error A) : Completion Thrown B :=
  match c with
  | Return a => Return (k a)
  | Throw e => Throw (Native e)
  end.

(** The adapter's client and the legacy driver's. *)
Definition driver_of `{Sdk} (s : State AliyunOSS.t) : OSS := AliyunOSS._driver (this s).
Definition oss_of `{Sdk} (s : State Aliyun.t) : OSS := Aliyun.oss (this s).

(** The bucket the next pull gives, and the one the driver was configured
    with. *)
Definition pending `{Sdk} (s : State Aliyun.t) : JsVal :=
  Resetable.get (Aliyun._bucket (this s)).
Definition configured `{Sdk} (s : State Aliyun.t) : JsVal :=
  Resetable._initialValue (Aliyun._bucket (this s)).

(** The state once the bucket has been pulled. *)
Definition pulled `{Sdk} (s : State Aliyun.t) : State Aliyun.t :=
  {| this := {| Aliyun.oss := oss_of s;
                Aliyun._bucket := Resetable.clear (Aliyun._bucket (this s)) |};
     world := world s |}.

(** ** The operations of the contract, one by one *)

(** A call of a public method of [AliyunOSS]. *)
Inductive Operation : Type :=
| Bucket (bucket : string)
| Copy (src dest : string) (options : option Obj)
| Delete (location : string) (options : option Obj)
| Driver
| Exists (location : string) (options : option Obj)
| Get (location : string) (encoding : option string)
| GetBuffer (location : string)
| GetSignedUrl (location : string) (options : option Obj)
| GetStat (location : string)
| GetStream (location : string)
| GetUrl (location : string)
| Move (src dest : string)
| Put (location : string) (content : PutContent) (options : option Obj).

(** What the call gives back. *)
Inductive Outcome `{Node} : Type :=
| OClient (client : OSS)
| OResponse (r : Response.t)
| OExists (r : ExistsResponse.t)
| OText (r : ContentResponse.t string)
| OBuffer (r : ContentResponse.t Buffer)
| OSignedUrl (r : SignedUrlResponse.t)
| OStat (r : StatResponse.t)
| OStream (r : Readable)
| OUrl (url : string).

(** The [raw] field of what came back, when it is an envelope. *)
Definition raw_of `{Node} (out : Outcome) : option Raw :=
  match out with
  | OResponse r => Some (Response.raw r)
  | OExists r => Some (ExistsResponse.raw r)
  | OText r => Some (ContentResponse.raw r)
  | OBuffer r => Some (ContentResponse.raw r)
  | OSignedUrl r => Some (SignedUrlResponse.raw r)
  | OStat r => Some (StatResponse.raw r)
  | OClient _ | OStream _ | OUrl _ => None
  end.

(** Whether what came back has a [content] field. *)
Definition has_content `{Node} (out : Outcome) : bool :=
  match out with
  | OText _ | OBuffer _ => true
  | _ => false
  end.

(** The read operations. *)
Definition reads (op : Operation) : bool :=
  match op with
  | Get _ _ | GetBuffer _ => true
  | _ => false
  end.

(** The path an operation reports in its exceptions. *)
Definition path_of (op : Operation) : string :=
  match op with
  | Copy src _ _ | Move src _ => src
  | Delete location _ | Exists location _ | Get location _ | GetBuffer location
  | GetSignedUrl location _ | GetStat location | GetStream location
  | GetUrl location | Put location _ _ => location
  | Bucket _ | Driver => ""
  end.

Definition run `{Sdk} `{Node} (op : Operation) : M (State AliyunOSS.t) Thrown Outcome :=
  match op with
  | Bucket bucket => r ← AliyunOSS.bucket bucket; mret (OClient r)
  | Copy src dest options => r ← AliyunOSS.copy src dest options; mret (OResponse r)
  | Delete location options => r ← AliyunOSS.delete location options; mret (OResponse r)
  | Driver => r ← AliyunOSS.driver; mret (OClient r)
  | Exists location options => r ← AliyunOSS.exists_ location options; mret (OExists r)
  | Get location encoding => r ← AliyunOSS.get location encoding; mret (OText r)
  | GetBuffer location => r ← AliyunOSS.getBuffer location; mret (OBuffer r)
  | GetSignedUrl location options => r ← AliyunOSS.getSignedUrl location options; mret (OSignedUrl r)
  | GetStat location => r ← AliyunOSS.getStat location; mret (OStat r)
  | GetStream location => r ← AliyunOSS.getStream location; mret (OStream r)
  | GetUrl location => r ← AliyunOSS.getUrl location; mret (OUrl r)
  | Move src dest => r ← AliyunOSS.move src dest; mret (OResponse r)
  | Put location content options => r ← AliyunOSS.put location content options; mret (OResponse r)
  end.

(** The encoding names [toString] accepts. *)
Definition encoding_known (encoding : string) : bool :=
  bool_decide (is_Some (getEncodingOps encoding)).

(** The operations all of whose failures go through [handleError]: all but
    [getStream], which awaits the client outside any [try], and [get] with a
    name that is not an encoding, where [toString] throws after the guarded
    read. *)
Definition guarded (op : Operation) : bool :=
  match op with
  | GetStream _ => false
  | Get _ (Some encoding) => encoding_known encoding
  | _ => true
  end.

(** The error of a completion that raised. *)
Definition error_of {E A} (r : Completion E A) : option E :=
  match r with
  | Throw e => Some e
  | Return _ => None
  end.

(** The error the client throws to an operation, if it throws: the error of
    the one client call the operation makes, on the adapter's client and in
    the state the service is in; for [move], the error of the copy, or else
    of the delete made in the state the copy left. *)
Definition client_error `{Sdk} (op : Operation) (s : State AliyunOSS.t) : option Error :=
  let d := driver_of s in
  let rem := remote (world s) in
  match op with
  | Copy src dest options => error_of (oss.copy d dest src options rem).1
  | Delete location options => error_of (oss.delete d location options rem).1
  | Exists location options => error_of (oss.head d location options rem).1
  | Get location _ | GetBuffer location => error_of (oss.get d location rem).1
  | GetSignedUrl location options =>
      error_of (oss.signatureUrl d location (AliyunOSS.signedUrlParams (default ∅ options)))
  | GetStat location => error_of (oss.head d location None rem).1
  | GetStream location => error_of (oss.getStream d location None rem).1
  | Move src dest =>
      match oss.copy d dest src None rem with
      | (Throw e, _) => Some e
      | (Return _, rem1) => error_of (oss.delete d src None rem1).1
      end
  | Put location content options => error_of (oss.put d location content options rem).1
  | Bucket _ | Driver | GetUrl _ => None
  end.

(** What the client gave back to an operation that has an envelope to put
    it in: the result of its one client call, for [exists] also the error of
    that call, and for [move] nothing. *)
Definition client_raw `{Sdk} (op : Operation) (s : State AliyunOSS.t) : option Raw :=
  let d := driver_of s in
  let rem := remote (world s) in
  let result {A} (k : A → Raw) (r : Completion Error A) : option Raw :=
    match r with Return a => Some (k a) | Throw _ => None end in
  match op with
  | Copy src dest options => result RawCopy (oss.copy d dest src options rem).1
  | Delete location options => result RawDelete (oss.delete d location options rem).1
  | Exists location options =>
      match (oss.head d location options rem).1 with
      | Return r => Some (RawHead r)
      | Throw e => Some (RawError e)
      end
  | Get location _ | GetBuffer location => result RawGet (oss.get d location rem).1
  | GetSignedUrl location options =>
      result RawString
        (oss.signatureUrl d location (AliyunOSS.signedUrlParams (default ∅ options)))
  | GetStat location => result RawHead (oss.head d location None rem).1
  | Move _ _ => Some RawUndefined
  | Put location content options => result RawPut (oss.put d location content options rem).1
  | Bucket _ | Driver | GetStream _ | GetUrl _ => None
  end.

(** [get] as the specification words it: the content of [getBuffer] decoded
    with the encoding, next to the raw result of [getBuffer]. *)
Definition get_spec `{Sdk} `{Node} (location : string) (encoding : Encoding) : M (State AliyunOSS.t) Thrown (ContentResponse.t string) :=
  bufferResult ← AliyunOSS.getBuffer location;
  mret {| ContentResponse.content := slice encoding (ContentResponse.content bufferResult);
          ContentResponse.raw := ContentResponse.raw bufferResult |}.

(** The adapter's client was constructed in this world. *)
Definition constructed `{Sdk} (s : State AliyunOSS.t) : Prop :=
  (oss_id (driver_of s) < clients (world s))%nat.

(** A call of a method of [Aliyun] other than [bucket]. *)
Inductive LegacyOperation : Type :=
| LExists (location : string) (params : option Obj)
| LPut (location : string) (content : PutContent) (params : option Obj)
| LDelete (location : string) (params : option Obj)
| LGet (location : string)
| LGetStream (location : string) (params : option Obj)
| LPutStream (location : string) (file : Readable) (params : option Obj)
| LGetUrl (location : string) (bucket : JsVal)
| LCopy (src dest : string) (destBucket : JsVal) (params : option Obj)
| LMove (src dest : string) (destBucket : JsVal) (params : option Obj).




(** ** Sequences of operations, and what the client is assumed to do *)

(** The operations that construct a client. *)
Definition is_bucket (op : Operation) : bool :=
  match op with
  | Bucket _ => true
  | _ => false
  end.

(** The state a sequence of operations of [AliyunOSS] leaves, however each
    of them ends. *)
Definition runs `{Sdk} `{Node} (ops : list Operation) (s : State AliyunOSS.t) : State AliyunOSS.t :=
  foldl (λ s op, (run op s).2) s ops.

(** What a call of the legacy driver raises, if it raises. *)
Definition raised `{Sdk} (op : LegacyOperation) (s : State Aliyun.t) : option Thrown :=
  let error {A} (r : Completion Thrown A) : option Thrown :=
    match r with Throw x => Some x | Return _ => None end in
  match op with
  | LExists location params => error (Aliyun.exists_ location params s).1
  | LPut location content params => error (Aliyun.put location content params s).1
  | LDelete location params => error (Aliyun.delete location params s).1
  | LGet location => error (Aliyun.get location s).1
  | LGetStream location params => error (Aliyun.getStream location params s).1
  | LPutStream location file params => error (Aliyun.putStream location file params s).1
  | LGetUrl location bucket => error (Aliyun.getUrl location bucket s).1
  | LCopy src dest destBucket params => error (Aliyun.copy src dest destBucket params s).1
  | LMove src dest destBucket params => error (Aliyun.move src dest destBucket params s).1
  end.

(** What a call of the legacy driver is to raise: the error the client
    throws for the call the method makes, on the driver's client and in the
    state the service is in (for [move], the error of the copy, or else of
    the delete made in the state the copy left); for [get] also its own
    [Error(content)] when the content is not a Buffer; for [getUrl]
    nothing. *)
Definition legacy_error `{Sdk} (op : LegacyOperation) (s : State Aliyun.t) : option Thrown :=
  let d := oss_of s in
  let rem := remote (world s) in
  let native {A} (r : Completion Error A) : option Thrown :=
    match r with Throw e => Some (Native e) | Return _ => None end in
  let sourceName src := "/" +:+ ToString (pending s) +:+ "/" +:+ src in
  match op with
  | LExists location params => native (oss.head d location params rem).1
  | LPut location content params => native (oss.put d location content params rem).1
  | LDelete location params =>
      native (oss.delete d location (Some (default ∅ params)) rem).1
  | LGet location =>
      match (oss.get d location rem).1 with
      | Throw e => Some (Native e)
      | Return response =>
          match get_other response with
          | Some content => Some (Native (Aliyun.Error_ content))
          | None => None
          end
      end
  | LGetStream location params =>
      native (oss.getStream d location (Some (default ∅ params)) rem).1
  | LPutStream location file params =>
      native (oss.putStream d location file (Some (default ∅ params)) rem).1
  | LGetUrl _ _ => None
  | LCopy src dest _ _ => native (oss.copy d dest (sourceName src) None rem).1
  | LMove src dest _ _ =>
      match oss.copy d dest (sourceName src) None rem with
      | (Throw e, _) => Some (Native e)
      | (Return _, rem1) => native (oss.delete d src (Some ∅) rem1).1
      end
  end.

(** Assumptions on the service behind the client, for the properties that
    need one: what was put under a name is what a later [get] of the name
    gives; a copy makes its destination answer to [head]; a delete makes the
    name answer 404 to [head] and leaves the answers for other names. *)
Definition get_after_put `{Sdk} : Prop :=
  ∀ client name (b : Buffer) options rem r rem',
    oss.put client name (PutBuffer b) options rem = (Return r, rem') →
    ∃ g, (oss.get client name rem').1 = Return g ∧ get_content g = b.

Definition head_after_copy `{Sdk} : Prop :=
  ∀ client name sourceName options rem r rem' options',
    oss.copy client name sourceName options rem = (Return r, rem') →
    returns (oss.head client name options' rem').1 = true.

Definition head_after_delete `{Sdk} : Prop :=
  ∀ client name options rem r rem' options',
    oss.delete client name options rem = (Return r, rem') →
    ∃ e, (oss.head client name options' rem').1 = Throw e ∧ status e = Some 404.

Definition delete_keeps_others `{Sdk} : Prop :=
  ∀ client name options rem r rem' other options',
    oss.delete client name options rem = (Return r, rem') →
    other ≠ name →
    returns (oss.head client other options' rem).1 = true →
    returns (oss.head client other options' rem').1 = true.

(** * Properties *)

Lemma handleError_throws {S A} (err : Error) (path : string) (s : S) :
  handleError (A := A) err path s = (Throw (Wrapped (taxonomy err path)), s).
Proof. unfold handleError, taxonomy. by destruct (String.eqb _ _). Qed.

Ltac unfold_monad :=
  unfold uncaught, tryCatch, local, request, gets, modify, throw, new_OSS,
    mbind, M_bind, mret, M_ret in *.

Section Guarded.
Context `{Sdk} {O : Type}.

(** The shape every guarded method of [AliyunOSS] has. *)
Lemma guarded_request {A B} (driver : M (State O) Error OSS) (drv : State O → OSS)
    (c : OSS → Call) (f : OSS → Remote → Completion Error A * Remote)
    (k : A → B) (path : string) (s : State O) :
  (∀ s, driver s = (Return (drv s), s)) →
  tryCatch (d ← driver; result ← request (c d) (f d); mret (k result))
           (λ e, handleError e path) s
  = (settle k path (f (drv s) (remote (world s))).1,
     after (c (drv s)) (f (drv s) (remote (world s))).2 s).
Proof.
  intros Hd. unfold_monad. rewrite Hd.
  destruct (f (drv s) (remote (world s))) as [[a|e] rem]; simpl; [done|].
  by rewrite handleError_throws.
Qed.

(** The shape every unguarded call of the legacy driver has. *)
Lemma unguarded_request {A B} (driver : M (State O) Thrown OSS) (drv : State O → OSS)
    (c : OSS → Call) (f : OSS → Remote → Completion Error A * Remote)
    (k : A → B) (s : State O) :
  (∀ s, driver s = (Return (drv s), s)) →
  (d ← driver; result ← uncaught (request (c d) (f d)); mret (k result)) s
  = (propagate k (f (drv s) (remote (world s))).1,
     after (c (drv s)) (f (drv s) (remote (world s))).2 s).
Proof.
  intros Hd. unfold_monad. rewrite Hd.
  by destruct (f (drv s) (remote (world s))) as [[a|e] rem].
Qed.
End Guarded.

Section AliyunOSS_methods.
Context `{Sdk} `{Node}.
Implicit Types (s : State AliyunOSS.t) (location src dest : string).

Lemma AliyunOSS_copy_ends src dest options s :
  AliyunOSS.copy src dest options s
  = (settle (λ r, {| Response.raw := RawCopy r |}) src
       (oss.copy (driver_of s) dest src options (remote (world s))).1,
     after (CallCopy (driver_of s) dest src options)
       (oss.copy (driver_of s) dest src options (remote (world s))).2 s).
Proof.
  unfold AliyunOSS.copy.
  by rewrite (guarded_request _ driver_of (λ d, CallCopy d dest src options)
                (λ d, oss.copy d dest src options)).
Qed.

Lemma AliyunOSS_delete_ends location options s :
  AliyunOSS.delete location options s
  = (settle (λ r, {| Response.raw := RawDelete r |}) location
       (oss.delete (driver_of s) location options (remote (world s))).1,
     after (CallDelete (driver_of s) location options)
       (oss.delete (driver_of s) location options (remote (world s))).2 s).
Proof.
  unfold AliyunOSS.delete.
  by rewrite (guarded_request _ driver_of (λ d, CallDelete d location options)
                (λ d, oss.delete d location options)).
Qed.

Lemma AliyunOSS_put_ends location content options s :
  AliyunOSS.put location content options s
  = (settle (λ r, {| Response.raw := RawPut r |}) location
       (oss.put (driver_of s) location content options (remote (world s))).1,
     after (CallPut (driver_of s) location content options)
       (oss.put (driver_of s) location content options (remote (world s))).2 s).
Proof.
  unfold AliyunOSS.put.
  by rewrite (guarded_request _ driver_of (λ d, CallPut d location content options)
                (λ d, oss.put d location content options)).
Qed.

Lemma AliyunOSS_getBuffer_ends location s :
  AliyunOSS.getBuffer location s
  = (settle (λ r, {| ContentResponse.content := get_content r;
                      ContentResponse.raw := RawGet r |}) location
       (oss.get (driver_of s) location (remote (world s))).1,
     after (CallGet (driver_of s) location)
       (oss.get (driver_of s) location (remote (world s))).2 s).
Proof.
  unfold AliyunOSS.getBuffer.
  by rewrite (guarded_request _ driver_of (λ d, CallGet d location)
                (λ d, oss.get d location)).
Qed.

Lemma AliyunOSS_getStat_ends location s :
  AliyunOSS.getStat location s
  = (settle (λ r, {| StatResponse.size := Number (headers (head_res r) !! "content-length");
                      StatResponse.modified := Date (headers (head_res r) !! "last-modified");
                      StatResponse.raw := RawHead r |}) location
       (oss.head (driver_of s) location None (remote (world s))).1,
     after (CallHead (driver_of s) location None)
       (oss.head (driver_of s) location None (remote (world s))).2 s).
Proof.
  unfold AliyunOSS.getStat.
  by rewrite (guarded_request _ driver_of (λ d, CallHead d location None)
                (λ d, oss.head d location None)).
Qed.

Lemma AliyunOSS_getSignedUrl_ends location options s :
  AliyunOSS.getSignedUrl location options s
  = (settle (λ r, {| SignedUrlResponse.signedUrl := r;
                      SignedUrlResponse.raw := RawString r |}) location
       (oss.signatureUrl (driver_of s) location
          (AliyunOSS.signedUrlParams (default ∅ options))),
     after (CallSignatureUrl (driver_of s) location
              (AliyunOSS.signedUrlParams (default ∅ options)))
       (remote (world s)) s).
Proof.
  unfold AliyunOSS.getSignedUrl, local.
  by rewrite (guarded_request _ driver_of
                (λ d, CallSignatureUrl d location (AliyunOSS.signedUrlParams (default ∅ options)))
                (λ d rem, (oss.signatureUrl d location
                             (AliyunOSS.signedUrlParams (default ∅ options)), rem))).
Qed.

Lemma AliyunOSS_exists_ends location options s :
  AliyunOSS.exists_ location options s
  = (match (oss.head (driver_of s) location options (remote (world s))).1 with
     | Return r => Return {| ExistsResponse.exists_ := true; ExistsResponse.raw := RawHead r |}
     | Throw e =>
         if decide (status e = Some 404)
         then Return {| ExistsResponse.exists_ := false; ExistsResponse.raw := RawError e |}
         else Throw (Wrapped (taxonomy e location))
     end,
     after (CallHead (driver_of s) location options)
       (oss.head (driver_of s) location options (remote (world s))).2 s).
Proof.
  unfold AliyunOSS.exists_, AliyunOSS.driver_, driver_of. unfold_monad.
  destruct (oss.head _ _ _ _) as [[r|e] rem]; simpl; [done|].
  case_decide; [done|]. by rewrite handleError_throws.
Qed.

Lemma AliyunOSS_getStream_ends location s :
  AliyunOSS.getStream location s
  = (propagate stream (oss.getStream (driver_of s) location None (remote (world s))).1,
     after (CallGetStream (driver_of s) location None)
       (oss.getStream (driver_of s) location None (remote (world s))).2 s).
Proof.
  unfold AliyunOSS.getStream.
  by rewrite (unguarded_request _ driver_of (λ d, CallGetStream d location None)
                (λ d, oss.getStream d location None)).
Qed.
End AliyunOSS_methods.

Section Aliyun_methods.
Context `{Sdk}.
Implicit Types (s : State Aliyun.t) (location src dest : string).

Lemma pulled_pulled s : pulled (pulled s) = pulled s.
Proof. done. Qed.

Lemma pending_pulled s : pending (pulled s) = configured s.
Proof. done. Qed.

Lemma Aliyun_exists_ends location params s :
  Aliyun.exists_ location params s
  = (propagate (λ _, true) (oss.head (oss_of s) location params (remote (world s))).1,
     after (CallHead (oss_of s) location params)
       (oss.head (oss_of s) location params (remote (world s))).2 s).
Proof.
  unfold Aliyun.exists_.
  by rewrite (unguarded_request _ oss_of (λ d, CallHead d location params)
                (λ d, oss.head d location params)).
Qed.

Lemma Aliyun_delete_ends location params s :
  Aliyun.delete location params s
  = (propagate (λ _, true)
       (oss.delete (oss_of s) location (Some (default ∅ params)) (remote (world s))).1,
     after (CallDelete (oss_of s) location (Some (default ∅ params)))
       (oss.delete (oss_of s) location (Some (default ∅ params)) (remote (world s))).2 s).
Proof.
  unfold Aliyun.delete.
  by rewrite (unguarded_request _ oss_of (λ d, CallDelete d location (Some (default ∅ params)))
                (λ d, oss.delete d location (Some (default ∅ params)))).
Qed.

Lemma Aliyun_getUrl_ends location bucket s :
  Aliyun.getUrl location bucket s
  = if truthy bucket
    then (Return (Aliyun.url (options (oss_of s)) bucket location), s)
    else (Return (Aliyun.url (options (oss_of s)) (pending s) location), pulled s).
Proof.
  unfold Aliyun.getUrl, Aliyun.this_oss, Aliyun.bucket_pull. unfold_monad.
  destruct (truthy bucket); [|done]. by destruct s.
Qed.

Lemma Aliyun_copy_ends src dest destBucket params s :
  Aliyun.copy src dest destBucket params s
  = let sourceName := "/" +:+ ToString (pending s) +:+ "/" +:+ src in
    let destBucket := if truthy destBucket then destBucket else configured s in
    (propagate (λ _, Aliyun.url (options (oss_of s)) destBucket dest)
       (oss.copy (oss_of s) dest sourceName None (remote (world s))).1,
     after (CallCopy (oss_of s) dest sourceName None)
       (oss.copy (oss_of s) dest sourceName None (remote (world s))).2 (pulled s)).
Proof.
  unfold Aliyun.copy. unfold mbind at 1, M_bind at 1.
  unfold Aliyun.bucket_pull at 1. simpl.
  unfold mbind at 1, M_bind at 1. unfold Aliyun.this_oss at 1, gets at 1. simpl.
  unfold mbind at 1, M_bind at 1. unfold_monad. simpl.
  fold (pending s) (oss_of s).
  destruct (oss.copy _ _ _ _ _) as [[r|e] rem]; simpl; [|done].
  rewrite Aliyun_getUrl_ends. by destruct (truthy destBucket).
Qed.
Lemma Aliyun_get_ends location s :
  Aliyun.get location s
  = (match (oss.get (oss_of s) location (remote (world s))).1 with
     | Return response =>
         match get_other response with
         | None => Return (get_content response)
         | Some content => Throw (Native (Aliyun.Error_ content))
         end
     | Throw e => Throw (Native e)
     end,
     after (CallGet (oss_of s) location)
       (oss.get (oss_of s) location (remote (world s))).2 s).
Proof.
  unfold Aliyun.get, Aliyun.this_oss, oss_of. unfold_monad.
  destruct (oss.get _ _ _) as [[r|e] rem]; simpl; [|done].
  by destruct (get_other r).
Qed.
End Aliyun_methods.

(** ** [move] is [copy] then [delete] *)

Section Move.
Context `{Sdk} `{Node}.

(** C1.  In both drivers [move(src, dest)] runs [copy(src, dest)] and then
    [delete(src)] in the state [copy] left: when [copy] raises, [move]
    raises the same and nothing is deleted; when [delete] raises after a
    successful [copy], [move] raises what [delete] raised and ends in the
    state [delete] left, with the copy made and no further call to the
    client (nothing undoes the copy); [move] returns only when both
    returned.  The calls made are the copy and, after a successful copy,
    the delete, and nothing else. *)
Theorem move_copy_then_delete (src dest : string) :
  (∀ s : State AliyunOSS.t,
     match AliyunOSS.copy src dest None s with
     | (Throw x, s1) => AliyunOSS.move src dest s = (Throw x, s1)
     | (Return _, s1) =>
         match AliyunOSS.delete src None s1 with
         | (Throw x, s2) => AliyunOSS.move src dest s = (Throw x, s2)
         | (Return _, s2) =>
             AliyunOSS.move src dest s = (Return {| Response.raw := RawUndefined |}, s2)
         end
     end
     ∧ calls (world (AliyunOSS.move src dest s).2)
       = (calls (world s)
          ++ CallCopy (driver_of s) dest src None
             :: (if returns (AliyunOSS.copy src dest None s).1
                 then [CallDelete (driver_of s) src None] else []))%list)
  ∧ (∀ (destBucket : JsVal) (params : option Obj) (s : State Aliyun.t),
       match Aliyun.copy src dest destBucket (Some (default ∅ params)) s with
       | (Throw x, s1) => Aliyun.move src dest destBucket params s = (Throw x, s1)
       | (Return url, s1) =>
           match Aliyun.delete src None s1 with
           | (Throw x, s2) => Aliyun.move src dest destBucket params s = (Throw x, s2)
           | (Return _, s2) => Aliyun.move src dest destBucket params s = (Return url, s2)
           end
       end
       ∧ calls (world (Aliyun.move src dest destBucket params s).2)
         = (calls (world s)
            ++ CallCopy (oss_of s) dest ("/" +:+ ToString (pending s) +:+ "/" +:+ src) None
               :: (if returns (Aliyun.copy src dest destBucket (Some (default ∅ params)) s).1
                   then [CallDelete (oss_of s) src (Some ∅)] else []))%list).
Proof.
  split.
  - intros s. unfold AliyunOSS.move, mbind, M_bind, mret, M_ret.
    rewrite !AliyunOSS_copy_ends.
    destruct (oss.copy _ _ _ _ _) as [[r1|e1] rem1]; simpl; [|done].
    rewrite !AliyunOSS_delete_ends.
    destruct (oss.delete _ _ _ _) as [[r2|e2] rem2]; simpl;
      (split; [done|]); unfold after; simpl; by rewrite <- app_assoc.
  - intros destBucket params s. unfold Aliyun.move, mbind, M_bind, mret, M_ret.
    rewrite !Aliyun_copy_ends. simpl.
    destruct (oss.copy _ _ _ _ _) as [[r1|e1] rem1]; simpl; [|done].
    rewrite !Aliyun_delete_ends.
    destruct (oss.delete _ _ _ _) as [[r2|e2] rem2]; simpl;
      (split; [done|]); unfold after; simpl; by rewrite <- app_assoc.
Qed.
End Move.

Section Taxonomy.
Context `{Sdk} `{Node}.
Implicit Types (s : State AliyunOSS.t) (location src dest : string).

Lemma then_ret {S E A B} (m : M S E A) (k : A → B) (s : S) :
  (r ← m; mret (k r)) s
  = (match (m s).1 with Return a => Return (k a) | Throw e => Throw e end, (m s).2).
Proof. unfold mbind, M_bind, mret, M_ret. by destruct (m s) as [[a|e] s']. Qed.

Lemma toString_known (buf : Buffer) (encoding : string) :
  encoding_known encoding = true →
  ∃ ops, toString buf encoding = Return (slice ops buf).
Proof.
  unfold encoding_known, toString. intros Hk.
  apply bool_decide_eq_true in Hk as [ops Hops]. rewrite Hops.
  exists ops. destruct buf; [by rewrite slice_empty|done].
Qed.

Lemma toString_utf8 (buf : Buffer) : toString buf "utf-8" = Return (slice ops_utf8 buf).
Proof. destruct buf; [|done]. simpl. by rewrite slice_empty. Qed.

Lemma AliyunOSS_get_ends location encoding s :
  AliyunOSS.get location encoding s
  = match AliyunOSS.getBuffer location s with
    | (Return bufferResult, s') =>
        (propagate (λ content, {| ContentResponse.content := content;
                                  ContentResponse.raw := ContentResponse.raw bufferResult |})
           (toString (ContentResponse.content bufferResult) (default "utf-8" encoding)), s')
    | (Throw x, s') => (Throw x, s')
    end.
Proof.
  unfold AliyunOSS.get. unfold_monad.
  destruct (AliyunOSS.getBuffer location s) as [[r|x] s']; [|done].
  by destruct (toString _ _).
Qed.

Lemma AliyunOSS_move_ends src dest s :
  AliyunOSS.move src dest s
  = match AliyunOSS.copy src dest None s with
    | (Throw x, s1) => (Throw x, s1)
    | (Return _, s1) =>
        match AliyunOSS.delete src None s1 with
        | (Throw x, s2) => (Throw x, s2)
        | (Return _, s2) => (Return {| Response.raw := RawUndefined |}, s2)
        end
    end.
Proof.
  unfold AliyunOSS.move, mbind, M_bind, mret, M_ret.
  destruct (AliyunOSS.copy src dest None s) as [[r1|x1] s1]; [|done].
  by destruct (AliyunOSS.delete src None s1) as [[r2|x2] s2].
Qed.

(** C3 (amended).  Whatever a guarded operation of [AliyunOSS] raises is an
    exception of the taxonomy made by [handleError] from the very error the
    client threw to the operation: [FileNotFound] when the error's name is
    [NoSuchKeyError], otherwise [UnknownException] with the error's name as
    its code; both keep the error as their cause and carry the operation's
    path.  The guarded operations are all but [getStream], and [get] when it
    is given a name that is not an encoding. *)
Theorem failures_are_wrapped (op : Operation) s :
  guarded op = true →
  match (run op s).1 with
  | Throw x =>
      ∃ e, client_error op s = Some e
           ∧ x = Wrapped (taxonomy e (path_of op))
  | Return _ => True
  end.
Proof.
  intros Hg. unfold run.
  destruct op; try discriminate Hg; rewrite then_ret; cbn [fst snd path_of client_error].
  - done.
  - rewrite AliyunOSS_copy_ends. cbn [fst].
    destruct (oss.copy _ _ _ _ _).1; simpl; [done|by eexists].
  - rewrite AliyunOSS_delete_ends. cbn [fst].
    destruct (oss.delete _ _ _ _).1; simpl; [done|by eexists].
  - done.
  - rewrite AliyunOSS_exists_ends. cbn [fst].
    destruct (oss.head _ _ _ _).1; simpl; [done|].
    case_decide; [done|by eexists].
  - rewrite AliyunOSS_get_ends, AliyunOSS_getBuffer_ends.
    destruct (oss.get _ _ _).1 as [a|e]; simpl; [|by eexists].
    destruct (toString_known (get_content a) (default "utf-8" encoding)) as [ops Hops].
    { by destruct encoding. }
    by rewrite Hops.
  - rewrite AliyunOSS_getBuffer_ends. cbn [fst].
    destruct (oss.get _ _ _).1; simpl; [done|by eexists].
  - rewrite AliyunOSS_getSignedUrl_ends. cbn [fst].
    destruct (oss.signatureUrl _ _ _); simpl; [done|by eexists].
  - rewrite AliyunOSS_getStat_ends. cbn [fst].
    destruct (oss.head _ _ _ _).1; simpl; [done|by eexists].
  - done.
  - rewrite AliyunOSS_move_ends, AliyunOSS_copy_ends.
    destruct (oss.copy _ _ _ _ _) as [[r1|e1] rem1]; cbn [fst snd settle]; [|by eexists].
    rewrite AliyunOSS_delete_ends. unfold driver_of, after at 1 2. cbn [this world remote fst].
    fold (driver_of s).
    destruct (oss.delete _ _ _ _).1; simpl; [done|by eexists].
  - rewrite AliyunOSS_put_ends. cbn [fst].
    destruct (oss.put _ _ _ _ _).1; simpl; [done|by eexists].
Qed.
End Taxonomy.

Section Envelopes.
Context `{Sdk} `{Node}.
Implicit Types (s : State AliyunOSS.t) (location src dest : string).

Lemma AliyunOSS_getUrl_ends location s :
  AliyunOSS.getUrl location s = (Return (oss.generateObjectUrl (driver_of s) location), s).
Proof. done. Qed.

Lemma AliyunOSS_bucket_ends (bucket : string) s :
  AliyunOSS.bucket bucket s
  = (Return {| oss_id := clients (world s);
               oss_config := <["bucket" := VStr bucket]> (AliyunOSS._config (this s)) |},
     {| this := this s;
        world := {| remote := remote (world s); calls := calls (world s);
                    clients := S (clients (world s)) |} |}).
Proof.
  unfold AliyunOSS.bucket, assign. unfold_monad. simpl.
  by rewrite <- insert_union_singleton_l.
Qed.

(** C4 (amended).  When an operation of [AliyunOSS] returns an envelope, its
    [raw] field holds what the client gave back to that operation (for
    [exists: false], the 404 error itself) and is not [undefined], except
    for [move], whose envelope is [{ raw: undefined }]; [getStream],
    [getUrl], [bucket] and [driver] return no envelope.  A [content] field
    is there exactly for the read operations [get] and [getBuffer]. *)
Theorem raw_present_except_move (op : Operation) s :
  match (run op s).1 with
  | Return out =>
      raw_of out = client_raw op s
      ∧ match op with
        | Move _ _ => raw_of out = Some RawUndefined
        | GetStream _ | GetUrl _ | Bucket _ | Driver => raw_of out = None
        | _ => ∃ r, raw_of out = Some r ∧ r ≠ RawUndefined
        end
      ∧ has_content out = reads op
  | Throw _ => True
  end.
Proof.
  unfold run. destruct op; rewrite then_ret; cbn [fst snd client_raw reads].
  - done.
  - rewrite AliyunOSS_copy_ends. cbn [fst].
    destruct (oss.copy _ _ _ _ _).1; simpl; [|done].
    split; [done|]. split; [by eexists|done].
  - rewrite AliyunOSS_delete_ends. cbn [fst].
    destruct (oss.delete _ _ _ _).1; simpl; [|done].
    split; [done|]. split; [by eexists|done].
  - done.
  - rewrite AliyunOSS_exists_ends. cbn [fst].
    destruct (oss.head _ _ _ _).1; simpl.
    + split; [done|]. split; [by eexists|done].
    + case_decide; [|done]. simpl. split; [done|]. split; [by eexists|done].
  - rewrite AliyunOSS_get_ends, AliyunOSS_getBuffer_ends.
    destruct (oss.get _ _ _).1; simpl; [|done].
    destruct (toString _ _); simpl; [|done].
    split; [done|]. split; [by eexists|done].
  - rewrite AliyunOSS_getBuffer_ends. cbn [fst].
    destruct (oss.get _ _ _).1; simpl; [|done].
    split; [done|]. split; [by eexists|done].
  - rewrite AliyunOSS_getSignedUrl_ends. cbn [fst].
    destruct (oss.signatureUrl _ _ _); simpl; [|done].
    split; [done|]. split; [by eexists|done].
  - rewrite AliyunOSS_getStat_ends. cbn [fst].
    destruct (oss.head _ _ _ _).1; simpl; [|done].
    split; [done|]. split; [by eexists|done].
  - rewrite AliyunOSS_getStream_ends. cbn [fst].
    by destruct (oss.getStream _ _ _ _).1.
  - done.
  - rewrite AliyunOSS_move_ends, AliyunOSS_copy_ends.
    destruct (oss.copy _ _ _ _ _).1; simpl; [|done].
    rewrite AliyunOSS_delete_ends.
    by destruct (oss.delete _ _ _ _).1.
  - rewrite AliyunOSS_put_ends. cbn [fst].
    destruct (oss.put _ _ _ _ _).1; simpl; [|done].
    split; [done|]. split; [by eexists|done].
Qed.

(** What the claim C2 says holds of the adapter: [AliyunOSS.exists] asks the
    client for the object's head; when that fails with status 404 it does
    not raise and returns [{ exists: false, raw }] with the error as [raw];
    it raises only when the head request fails with another status, and then
    what [handleError] makes of the error.  The legacy [Aliyun.exists]
    returns the bare [true] when the head request succeeds (and see
    [legacy_exists_raises_on_missing_key] for when it does not). *)
Theorem exists_maps_not_found location (options : option Obj) :
  (∀ s,
     AliyunOSS.exists_ location options s
     = (match (oss.head (driver_of s) location options (remote (world s))).1 with
        | Return result =>
            Return {| ExistsResponse.exists_ := true; ExistsResponse.raw := RawHead result |}
        | Throw e =>
            if decide (status e = Some 404)
            then Return {| ExistsResponse.exists_ := false; ExistsResponse.raw := RawError e |}
            else Throw (Wrapped (taxonomy e location))
        end,
        after (CallHead (driver_of s) location options)
          (oss.head (driver_of s) location options (remote (world s))).2 s))
  ∧ (∀ s' : State Aliyun.t,
       match (oss.head (oss_of s') location options (remote (world s'))).1 with
       | Return _ => (Aliyun.exists_ location options s').1 = Return true
       | Throw _ => True
       end).
Proof.
  split; [intros s; apply AliyunOSS_exists_ends|].
  intros s'. rewrite Aliyun_exists_ends. simpl.
  by destruct (oss.head _ _ _ _).1.
Qed.

(** C5 (amended).  [copy(src, dest)] applies the client's [copy] to the
    destination first and the source second, and what it returns, what it
    raises and the state it leaves are those of that one client call.
    [AliyunOSS] passes the source key as the caller gave it, with the
    caller's options; the legacy driver passes [/bucket/src], with the
    bucket it pulls from its state, and no options. *)
Theorem copy_swaps_arguments src dest :
  (∀ (options : option Obj) s,
     AliyunOSS.copy src dest options s
     = (settle (λ r, {| Response.raw := RawCopy r |}) src
          (oss.copy (driver_of s) dest src options (remote (world s))).1,
        after (CallCopy (driver_of s) dest src options)
          (oss.copy (driver_of s) dest src options (remote (world s))).2 s))
  ∧ (∀ (destBucket : JsVal) (params : option Obj) (s' : State Aliyun.t),
       Aliyun.copy src dest destBucket params s'
       = (propagate
            (λ _, Aliyun.url (options (oss_of s'))
                    (if truthy destBucket then destBucket else configured s') dest)
            (oss.copy (oss_of s') dest ("/" +:+ ToString (pending s') +:+ "/" +:+ src) None
               (remote (world s'))).1,
          after (CallCopy (oss_of s') dest ("/" +:+ ToString (pending s') +:+ "/" +:+ src) None)
            (oss.copy (oss_of s') dest ("/" +:+ ToString (pending s') +:+ "/" +:+ src) None
               (remote (world s'))).2
            (pulled s'))).
Proof.
  split.
  - intros options s. apply AliyunOSS_copy_ends.
  - intros destBucket params s'. by rewrite Aliyun_copy_ends.
Qed.

(** C6 (amended).  [AliyunOSS.getUrl(K)] is a function of the client's
    configuration and K: it returns what the client's [generateObjectUrl]
    computes, makes no call that reaches the service and leaves the adapter
    and the world as they were, so a second call returns the same string.
    The legacy [Aliyun.getUrl(K, bucket)] is such a function only when it is
    given a bucket; without one it takes the bucket it pulls from the
    driver's state, which the pull resets to the configured bucket.  It makes
    no call to the client either. *)
Theorem getUrl_pure location :
  (∀ s,
     AliyunOSS.getUrl location s = (Return (oss.generateObjectUrl (driver_of s) location), s)
     ∧ AliyunOSS.getUrl location (AliyunOSS.getUrl location s).2 = AliyunOSS.getUrl location s)
  ∧ (∀ (bucket : JsVal) (s' : State Aliyun.t),
       Aliyun.getUrl location bucket s'
       = (if truthy bucket
          then (Return (Aliyun.url (options (oss_of s')) bucket location), s')
          else (Return (Aliyun.url (options (oss_of s')) (pending s') location), pulled s'))
       ∧ world (Aliyun.getUrl location bucket s').2 = world s').
Proof.
  split; [done|]. intros bucket s'. rewrite Aliyun_getUrl_ends.
  by destruct (truthy bucket).
Qed.

Lemma signedUrlParams_default :
  AliyunOSS.signedUrlParams ∅ = {[ "expires" := VNum 900 ]}.
Proof.
  unfold AliyunOSS.signedUrlParams, assign, prop.
  rewrite lookup_empty. simpl. by rewrite (left_id_L ∅ (∪)).
Qed.

Lemma signedUrlParams_expiry (E : Z) :
  AliyunOSS.signedUrlParams {[ "expiry" := VNum E ]}
  = {[ "expires" := VNum E; "expiry" := VNum E ]}.
Proof.
  unfold AliyunOSS.signedUrlParams, assign, prop.
  rewrite lookup_singleton_eq. simpl.
  apply map_eq. intros k.
  destruct (decide (k = "expiry")) as [->|Hk1].
  { rewrite lookup_union_l; [|by rewrite lookup_singleton_ne].
    rewrite lookup_singleton_eq. by rewrite lookup_insert_ne, lookup_singleton_eq. }
  rewrite lookup_union_r; [|by rewrite lookup_singleton_ne].
  destruct (decide (k = "expires")) as [->|Hk2].
  { by rewrite lookup_singleton_eq, lookup_insert_eq. }
  rewrite lookup_singleton_ne by done.
  by rewrite lookup_insert_ne, lookup_singleton_ne.
Qed.

(** C8.  [getSignedUrl(K)] without options applies the client's
    [signatureUrl] to K and [{ expires: 900 }], and
    [getSignedUrl(K, {expiry: E})] applies it to K and [expires: E] (next to
    the caller's own [expiry: E]); what the method returns or raises is made
    of what that signing call gives. *)
Theorem getSignedUrl_expires location s :
  AliyunOSS.getSignedUrl location None s
  = (settle (λ r, {| SignedUrlResponse.signedUrl := r; SignedUrlResponse.raw := RawString r |})
       location
       (oss.signatureUrl (driver_of s) location {[ "expires" := VNum 900 ]}),
     after (CallSignatureUrl (driver_of s) location {[ "expires" := VNum 900 ]})
       (remote (world s)) s)
  ∧ ∀ E : Z,
      AliyunOSS.getSignedUrl location (Some {[ "expiry" := VNum E ]}) s
      = (settle (λ r, {| SignedUrlResponse.signedUrl := r;
                         SignedUrlResponse.raw := RawString r |})
           location
           (oss.signatureUrl (driver_of s) location
              {[ "expires" := VNum E; "expiry" := VNum E ]}),
         after (CallSignatureUrl (driver_of s) location
                  {[ "expires" := VNum E; "expiry" := VNum E ]})
           (remote (world s)) s).
Proof.
  split; [|intros E]; rewrite AliyunOSS_getSignedUrl_ends; simpl.
  - by rewrite signedUrlParams_default.
  - by rewrite signedUrlParams_expiry.
Qed.
End Envelopes.

(** ** [get] against [getBuffer] *)

Section Get.
Context `{Sdk} `{Node}.
Implicit Types (s : State AliyunOSS.t) (location : string).

Lemma toString_ops (buf : Buffer) (encoding : string) (ops : Encoding) :
  getEncodingOps encoding = Some ops → toString buf encoding = Return (slice ops buf).
Proof.
  intros Hops. unfold toString. rewrite Hops.
  destruct buf; [by rewrite slice_empty|done].
Qed.

(** C7.  For a name E of an encoding, [get(K, E)] is [getBuffer(K)] with its
    content decoded by E's decoder and its raw result kept; without an
    encoding the decoder is the UTF-8 one; and [get] raises exactly when
    [getBuffer] does (and then the same). *)
Theorem get_decodes_getBuffer location (E : string) (ops : Encoding) s :
  getEncodingOps E = Some ops →
  AliyunOSS.get location (Some E) s = get_spec location ops s
  ∧ AliyunOSS.get location None s = get_spec location ops_utf8 s
  ∧ raises (AliyunOSS.get location (Some E) s).1 = raises (AliyunOSS.getBuffer location s).1
  ∧ raises (AliyunOSS.get location None s).1 = raises (AliyunOSS.getBuffer location s).1
  ∧ ∀ x, (AliyunOSS.getBuffer location s).1 = Throw x →
         (AliyunOSS.get location (Some E) s).1 = Throw x.
Proof.
  intros Hops. rewrite !AliyunOSS_get_ends. unfold get_spec, mbind, M_bind, mret, M_ret.
  destruct (AliyunOSS.getBuffer location s) as [[r|x] s']; cbn [default fst snd].
  - rewrite (toString_ops _ _ _ Hops), toString_utf8. simpl.
    by repeat split.
  - repeat split; try done. intros x' Hx. by simplify_eq.
Qed.

(** X14.  When the encoding given to [get] is no name of an encoding (the
    empty name is none) and [getBuffer] returned, [get] raises the runtime's
    [TypeError], as it came, if the content has bytes; of content without
    bytes it returns the empty string. *)
Lemma get_unknown_encoding location (E : string) s (r : ContentResponse.t Buffer) :
  getEncodingOps E = None →
  (AliyunOSS.getBuffer location s).1 = Return r →
  (AliyunOSS.get location (Some E) s).1
  = match ContentResponse.content r with
    | [] => Return {| ContentResponse.content := ""; ContentResponse.raw := ContentResponse.raw r |}
    | _ => Throw (Native {| name := "TypeError"; status := None;
                            message := "Unknown encoding: " +:+ E |})
    end.
Proof.
  intros Hn Hr. rewrite AliyunOSS_get_ends.
  destruct (AliyunOSS.getBuffer location s) as [c s']. simpl in Hr. subst c.
  simpl. unfold toString.
  destruct (ContentResponse.content r); [done|]. by rewrite Hn.
Qed.
End Get.

(** ** Switching buckets *)

Section Bucket.
Context `{Sdk} `{Node}.

Lemma constructor_constructed (config : AliyunOSSConfig.t) (w : World) :
  constructed {| this := (AliyunOSS.constructor config w).1;
                 world := (AliyunOSS.constructor config w).2 |}.
Proof. unfold constructed, driver_of. simpl. lia. Qed.

(** C9 (amended).  [AliyunOSS.bucket(B)] returns a client that is not the
    adapter's own: a new one, configured as the adapter is but for bucket B.
    It leaves the adapter's fields, the service and the record of calls as
    they were.  The legacy [Aliyun.bucket(B)] instead sets B in the
    receiver's bucket state and returns the receiver. *)
Theorem bucket_returns_new_client (B : string) (s : State AliyunOSS.t) :
  constructed s →
  (∃ client,
     (AliyunOSS.bucket B s).1 = Return client
     ∧ client ≠ driver_of s
     ∧ oss_config client = <["bucket" := VStr B]> (AliyunOSS._config (this s)))
  ∧ this (AliyunOSS.bucket B s).2 = this s
  ∧ remote (world (AliyunOSS.bucket B s).2) = remote (world s)
  ∧ calls (world (AliyunOSS.bucket B s).2) = calls (world s)
  ∧ ∀ (B' : JsVal) (s' : State Aliyun.t),
      Aliyun.bucket B' s'
      = (Return {| Aliyun.oss := oss_of s';
                   Aliyun._bucket := Resetable.set B' (Aliyun._bucket (this s')) |},
         {| this := {| Aliyun.oss := oss_of s';
                       Aliyun._bucket := Resetable.set B' (Aliyun._bucket (this s')) |};
            world := world s' |}).
Proof.
  intros Hc. rewrite AliyunOSS_bucket_ends. simpl. repeat split; try done.
  eexists. split; [done|]. split; [|done].
  intros Heq. unfold constructed in Hc. rewrite <- Heq in Hc. simpl in Hc. lia.
Qed.
End Bucket.

(** ** The one-shot bucket of the legacy driver *)

Section OneShot.
Context `{Sdk}.
Implicit Types (s : State Aliyun.t) (location src dest : string).

Lemma this_after {O} (c : Call) (rem : Remote) (s : State O) : this (after c rem s) = this s.
Proof. done. Qed.

Lemma Aliyun_move_ends src dest destBucket params s :
  Aliyun.move src dest destBucket params s
  = match Aliyun.copy src dest destBucket (Some (default ∅ params)) s with
    | (Throw x, s1) => (Throw x, s1)
    | (Return url, s1) =>
        match Aliyun.delete src None s1 with
        | (Throw x, s2) => (Throw x, s2)
        | (Return _, s2) => (Return url, s2)
        end
    end.
Proof.
  unfold Aliyun.move, mbind, M_bind, mret, M_ret.
  destruct (Aliyun.copy _ _ _ _ s) as [[r1|x1] s1]; [|done].
  by destruct (Aliyun.delete src None s1) as [[r2|x2] s2].
Qed.






End OneShot.

(** ** What stays as it was *)

Section Frame.
Context `{Sdk} `{Node}.
Implicit Types (s : State AliyunOSS.t).

(** The signing parameters: the caller's own [expires] wins over the one
    made from [expiry], and [expiry] left out or [undefined] means 900. *)
Lemma signedUrlParams_expires (options : Obj) :
  AliyunOSS.signedUrlParams options !! "expires"
  = Some (match options !! "expires" with
          | Some v => v
          | None => match prop options "expiry" with VUndefined => VNum 900 | v => v end
          end).
Proof.
  unfold AliyunOSS.signedUrlParams, assign.
  destruct (options !! "expires") as [v|] eqn:Hv.
  - by apply lookup_union_Some_l.
  - rewrite lookup_union_r by done. apply lookup_singleton_eq.
Qed.

(** X15.  [getSignedUrl(K, options)] applies the client's [signatureUrl] to
    K and to parameters that are the caller's options with an [expires]
    property added where the options have none: its value is the options'
    [expiry], or 900 when that is left out or [undefined]; an [expires] of
    the caller's own is passed on as it is.  What the method returns or
    raises is made of what that signing call gives. *)
Theorem getSignedUrl_signs_with_expires (location : string) (options : option Obj) s :
  ∃ params : Obj,
    AliyunOSS.getSignedUrl location options s
    = (settle (λ r, {| SignedUrlResponse.signedUrl := r;
                       SignedUrlResponse.raw := RawString r |})
         location (oss.signatureUrl (driver_of s) location params),
       after (CallSignatureUrl (driver_of s) location params) (remote (world s)) s)
    ∧ params !! "expires"
      = Some (match default ∅ options !! "expires" with
              | Some v => v
              | None =>
                  match prop (default ∅ options) "expiry" with
                  | VUndefined => VNum 900
                  | v => v
                  end
              end)
    ∧ default ∅ options ⊆ params
    ∧ dom params = dom (default ∅ options) ∪ {[ "expires" ]}.
Proof.
  exists (AliyunOSS.signedUrlParams (default ∅ options)).
  split; [apply AliyunOSS_getSignedUrl_ends|].
  split; [apply signedUrlParams_expires|].
  unfold AliyunOSS.signedUrlParams, assign.
  split; [apply map_union_subseteq_l|].
  by rewrite dom_union_L, dom_singleton_L.
Qed.

(** No operation of [AliyunOSS] assigns to a field of the adapter. *)
Lemma run_this (op : Operation) s : this (run op s).2 = this s.
Proof.
  unfold run. destruct op; rewrite then_ret; cbn [fst snd].
  - by rewrite AliyunOSS_bucket_ends.
  - by rewrite AliyunOSS_copy_ends.
  - by rewrite AliyunOSS_delete_ends.
  - done.
  - by rewrite AliyunOSS_exists_ends.
  - rewrite AliyunOSS_get_ends, AliyunOSS_getBuffer_ends.
    by destruct (settle _ _ _).
  - by rewrite AliyunOSS_getBuffer_ends.
  - by rewrite AliyunOSS_getSignedUrl_ends.
  - by rewrite AliyunOSS_getStat_ends.
  - by rewrite AliyunOSS_getStream_ends.
  - done.
  - rewrite AliyunOSS_move_ends, AliyunOSS_copy_ends.
    destruct (settle _ _ _); [|done].
    rewrite AliyunOSS_delete_ends. by destruct (settle _ _ _).
  - by rewrite AliyunOSS_put_ends.
Qed.

(** Only [bucket] constructs a client, so an adapter whose client was
    constructed stays so. *)
Lemma run_constructed (op : Operation) s : constructed s → constructed (run op s).2.
Proof.
  unfold constructed, driver_of. rewrite run_this. intros Hc.
  enough (clients (world s) ≤ clients (world (run op s).2))%nat by lia.
  unfold run. destruct op; rewrite then_ret; cbn [fst snd].
  - rewrite AliyunOSS_bucket_ends. simpl. lia.
  - by rewrite AliyunOSS_copy_ends.
  - by rewrite AliyunOSS_delete_ends.
  - done.
  - by rewrite AliyunOSS_exists_ends.
  - rewrite AliyunOSS_get_ends, AliyunOSS_getBuffer_ends.
    by destruct (settle _ _ _).
  - by rewrite AliyunOSS_getBuffer_ends.
  - by rewrite AliyunOSS_getSignedUrl_ends.
  - by rewrite AliyunOSS_getStat_ends.
  - by rewrite AliyunOSS_getStream_ends.
  - done.
  - rewrite AliyunOSS_move_ends, AliyunOSS_copy_ends.
    destruct (settle _ _ _); [|done].
    rewrite AliyunOSS_delete_ends. by destruct (settle _ _ _).
  - by rewrite AliyunOSS_put_ends.
Qed.
End Frame.

(** ** Further properties of [AliyunOSS] *)

Section More_AliyunOSS.
Context `{Sdk} `{Node}.
Implicit Types (s : State AliyunOSS.t) (location src dest : string).

(** X1.  [getStat(K)] and [exists(K)] make the same head request and leave
    the same state, and differ in what they make of a 404: where [exists]
    answers [true], [getStat] returns with the same raw result; where
    [exists] answers [false], [getStat] raises what [handleError] makes of
    the very error that [exists] returns as [raw]; where [exists] raises,
    [getStat] raises the same. *)
Theorem getStat_follows_exists location s :
  (AliyunOSS.getStat location s).2 = (AliyunOSS.exists_ location None s).2
  ∧ match (AliyunOSS.exists_ location None s).1 with
    | Return r =>
        if ExistsResponse.exists_ r
        then ∃ st, (AliyunOSS.getStat location s).1 = Return st
                   ∧ StatResponse.raw st = ExistsResponse.raw r
        else ∃ e, ExistsResponse.raw r = RawError e
                  ∧ status e = Some 404
                  ∧ (AliyunOSS.getStat location s).1 = Throw (Wrapped (taxonomy e location))
    | Throw x => (AliyunOSS.getStat location s).1 = Throw x
    end.
Proof.
  rewrite AliyunOSS_getStat_ends, AliyunOSS_exists_ends. cbn [fst snd].
  split; [done|].
  destruct (oss.head _ _ _ _).1 as [r|e]; simpl; [by eexists|].
  case_decide; simpl; [by eexists|done].
Qed.

(** Only [bucket] constructs a client, and it constructs one. *)
Lemma run_clients (op : Operation) s :
  clients (world (run op s).2)
  = (clients (world s) + (if is_bucket op then 1 else 0))%nat.
Proof.
  unfold run. destruct op; rewrite then_ret; cbn [fst snd is_bucket];
    rewrite ?Nat.add_0_r.
  - rewrite AliyunOSS_bucket_ends. simpl. lia.
  - by rewrite AliyunOSS_copy_ends.
  - by rewrite AliyunOSS_delete_ends.
  - done.
  - by rewrite AliyunOSS_exists_ends.
  - rewrite AliyunOSS_get_ends, AliyunOSS_getBuffer_ends.
    by destruct (settle _ _ _).
  - by rewrite AliyunOSS_getBuffer_ends.
  - by rewrite AliyunOSS_getSignedUrl_ends.
  - by rewrite AliyunOSS_getStat_ends.
  - by rewrite AliyunOSS_getStream_ends.
  - done.
  - rewrite AliyunOSS_move_ends, AliyunOSS_copy_ends.
    destruct (settle _ _ _); [|done].
    rewrite AliyunOSS_delete_ends. by destruct (settle _ _ _).
  - by rewrite AliyunOSS_put_ends.
Qed.

(** Over a sequence of operations. *)
Lemma runs_frame (ops : list Operation) s :
  this (runs ops s) = this s
  ∧ clients (world (runs ops s))
    = (clients (world s) + length (filter (λ op, is_bucket op = true) ops))%nat.
Proof.
  unfold runs. revert s. induction ops as [|op ops IH]; intros s; simpl.
  - split; [done|lia].
  - destruct (IH (run op s).2) as [Ht Hc]. rewrite Ht, Hc, run_this, run_clients.
    split; [done|]. rewrite filter_cons.
    case_decide as Hb; [rewrite Hb; simpl; lia|].
    destruct (is_bucket op); [done|lia].
Qed.

(** X3.  Whatever operations are called on an adapter, in whatever order and
    however they end, its fields [$driver], [$config] and [$bucket] stay as
    the constructor set them, and the clients constructed on the way are as
    many as the calls of [bucket]. *)
Theorem adapter_never_mutated (ops : list Operation) s :
  this (runs ops s) = this s
  ∧ clients (world (runs ops s))
    = (clients (world s) + length (filter (λ op, is_bucket op = true) ops))%nat.
Proof. apply runs_frame. Qed.

(** X4.  [bucket] never hands out a client twice: the client a later call
    of [bucket] returns, whatever was called in between and even for the
    same bucket name, is another one than the client an earlier call
    returned; both are configured from the adapter's [$config]. *)
Theorem bucket_handles_distinct (B B' : string) (ops : list Operation) s :
  ∃ c1 c2,
    (AliyunOSS.bucket B s).1 = Return c1
    ∧ (AliyunOSS.bucket B' (runs ops (AliyunOSS.bucket B s).2)).1 = Return c2
    ∧ c1 ≠ c2
    ∧ oss_config c1 = <["bucket" := VStr B]> (AliyunOSS._config (this s))
    ∧ oss_config c2 = <["bucket" := VStr B']> (AliyunOSS._config (this s)).
Proof.
  rewrite !AliyunOSS_bucket_ends. cbn [fst snd].
  set (s1 := {| this := this s; world := _ |}).
  destruct (runs_frame ops s1) as [Ht Hc].
  do 2 eexists. split; [done|]. split; [done|].
  rewrite Ht. split; [|done].
  intros Heq. apply (f_equal oss_id) in Heq. simpl in Heq.
  rewrite Hc in Heq. simpl in Heq. lia.
Qed.
End More_AliyunOSS.

Section Constructors.
Context `{Sdk} `{Node}.

Lemma spread_no_accessKey (config : AliyunOSSConfig.t) :
  AliyunOSSConfig.spread config !! "accessKeyId" = None
  ∧ AliyunOSSConfig.spread config !! "accessKeySecret" = None
  ∧ AliyunOSSConfig.spread config !! "bucket" = Some (VStr (AliyunOSSConfig.bucket config)).
Proof.
  destruct config as [k sec b [e|] [r|] [i|] [se|]]; by vm_compute.
Qed.

(** X5.  An adapter made by the constructor keeps the configuration it gave
    its client, with the credentials under the client's names
    [accessKeyId] and [accessKeySecret] next to every property of the
    caller's configuration; and whatever operations were called since, the
    client that [bucket(B)] returns has this configuration with the bucket
    replaced by B and nothing else changed.  Constructing makes no call to
    the client. *)
Theorem bucket_handle_inherits_config (config : AliyunOSSConfig.t) (w : World)
    (ops : list Operation) (B : string) :
  let s0 := {| this := (AliyunOSS.constructor config w).1;
               world := (AliyunOSS.constructor config w).2 |} in
  let params := AliyunOSS._config (this s0) in
  (oss_config (driver_of s0) = params
   ∧ AliyunOSSConfig.spread config ⊆ params
   ∧ params !! "accessKeyId" = Some (VStr (AliyunOSSConfig.key config))
   ∧ params !! "accessKeySecret" = Some (VStr (AliyunOSSConfig.secret config))
   ∧ params !! "bucket" = Some (VStr (AliyunOSSConfig.bucket config))
   ∧ AliyunOSS._bucket (this s0) = AliyunOSSConfig.bucket config
   ∧ remote (world s0) = remote w ∧ calls (world s0) = calls w)
  ∧ ∃ client,
      (AliyunOSS.bucket B (runs ops s0)).1 = Return client
      ∧ oss_config client = <["bucket" := VStr B]> params
      ∧ oss_config client !! "accessKeyId" = Some (VStr (AliyunOSSConfig.key config))
      ∧ oss_config client !! "accessKeySecret" = Some (VStr (AliyunOSSConfig.secret config))
      ∧ oss_config client !! "bucket" = Some (VStr B).
Proof.
  destruct (spread_no_accessKey config) as (Hid & Hsecret & Hbucket).
  intros s0 params.
  assert (Hp : params = AliyunOSSConfig.spread config
                        ∪ {[ "accessKeyId" := VStr (AliyunOSSConfig.key config);
                             "accessKeySecret" := VStr (AliyunOSSConfig.secret config) ]})
    by done.
  assert (Hk : params !! "accessKeyId" = Some (VStr (AliyunOSSConfig.key config))).
  { rewrite Hp, lookup_union_r by done. apply lookup_insert_eq. }
  assert (Hs : params !! "accessKeySecret" = Some (VStr (AliyunOSSConfig.secret config))).
  { rewrite Hp, lookup_union_r by done.
    rewrite lookup_insert_ne by done. apply lookup_singleton_eq. }
  split.
  - repeat split; try done.
    + rewrite Hp. apply map_union_subseteq_l.
    + rewrite Hp. by apply lookup_union_Some_l.
  - rewrite AliyunOSS_bucket_ends. cbn [fst snd].
    destruct (runs_frame ops s0) as [-> _]. fold params.
    eexists. split; [done|]. split; [done|]. cbn [oss_config].
    rewrite !lookup_insert_ne by done. by rewrite lookup_insert_eq.
Qed.

(** X6.  The legacy constructor gives its client the caller's configuration
    with four properties added where the caller has none of that name:
    [accessKeyId] and [accessKeySecret], read from [key] and [secret], and
    [region] and [secure], read from the configuration itself.  A property
    of the caller's own, [accessKeyId] included, always wins.  The bucket
    state starts with the configured bucket and nothing pending over it, and
    constructing makes no call to the client. *)
Theorem legacy_constructor_config_wins (config : Obj) (w : World) :
  let s0 := {| this := (Aliyun.constructor config w).1;
               world := (Aliyun.constructor config w).2 |} in
  let params := oss_config (oss_of s0) in
  config ⊆ params
  ∧ params !! "accessKeyId" = Some (default (prop config "key") (config !! "accessKeyId"))
  ∧ params !! "accessKeySecret"
    = Some (default (prop config "secret") (config !! "accessKeySecret"))
  ∧ params !! "region" = Some (prop config "region")
  ∧ params !! "secure" = Some (prop config "secure")
  ∧ dom params = dom config ∪ {[ "accessKeyId"; "accessKeySecret"; "region"; "secure" ]}
  ∧ pending s0 = prop config "bucket"
  ∧ configured s0 = prop config "bucket"
  ∧ remote (world s0) = remote w ∧ calls (world s0) = calls w.
Proof.
  simpl. unfold assign. rewrite (right_id_L ∅ (∪)).
  set (derived := ({[ "accessKeyId" := prop config "key";
                      "accessKeySecret" := prop config "secret";
                      "region" := prop config "region";
                      "secure" := prop config "secure" ]} : Obj)).
  assert (Hl : ∀ k v, derived !! k = Some v →
                      (config ∪ derived) !! k = Some (default v (config !! k))).
  { intros k v Hd. destruct (config !! k) as [v'|] eqn:Hc; simpl.
    - by apply lookup_union_Some_l.
    - by rewrite lookup_union_r. }
  split; [apply map_union_subseteq_l|].
  split; [by apply Hl|]. split; [by apply Hl|].
  split.
  { rewrite (Hl "region" (prop config "region")) by done.
    unfold prop. by destruct (config !! "region"). }
  split.
  { rewrite (Hl "secure" (prop config "secure")) by done.
    unfold prop. by destruct (config !! "secure"). }
  split; [|done].
  rewrite dom_union_L. by f_equal.
Qed.
End Constructors.

(** ** Further properties of the legacy driver *)

Section More_Aliyun.
Context `{Sdk}.
Implicit Types (s : State Aliyun.t) (location src dest : string).

(** X7.  The legacy driver never turns an error into an exception of its
    own making.  What a method raises is the error the client threw for the
    call the method made, as it came; [get] also raises its own
    [Error(content)] when the client's content is not a Buffer; [getUrl]
    never raises; and no method ever raises an exception of the taxonomy. *)
Theorem legacy_errors_are_native (op : LegacyOperation) s :
  raised op s = legacy_error op s
  ∧ (∀ location bucket, raised (LGetUrl location bucket) s = None)
  ∧ ∀ x, raised op s ≠ Some (Wrapped x).
Proof.
  assert (Heq : raised op s = legacy_error op s).
  { destruct op; cbn [raised legacy_error].
    - rewrite Aliyun_exists_ends. cbn [fst]. by destruct (oss.head _ _ _ _).1.
    - unfold Aliyun.put.
      rewrite (unguarded_request _ oss_of (λ d, CallPut d location content params)
                 (λ d, oss.put d location content params)) by done.
      cbn [fst]. by destruct (oss.put _ _ _ _ _).1.
    - rewrite Aliyun_delete_ends. cbn [fst]. by destruct (oss.delete _ _ _ _).1.
    - rewrite Aliyun_get_ends. cbn [fst].
      destruct (oss.get _ _ _).1 as [r|e]; [|done]. by destruct (get_other r).
    - unfold Aliyun.getStream.
      rewrite (unguarded_request _ oss_of
                 (λ d, CallGetStream d location (Some (default ∅ params)))
                 (λ d, oss.getStream d location (Some (default ∅ params)))) by done.
      cbn [fst]. by destruct (oss.getStream _ _ _ _).1.
    - unfold Aliyun.putStream.
      rewrite (unguarded_request _ oss_of
                 (λ d, CallPutStream d location file (Some (default ∅ params)))
                 (λ d, oss.putStream d location file (Some (default ∅ params)))) by done.
      cbn [fst]. by destruct (oss.putStream _ _ _ _ _).1.
    - rewrite Aliyun_getUrl_ends. by destruct (truthy bucket).
    - rewrite Aliyun_copy_ends. cbn [fst]. by destruct (oss.copy _ _ _ _ _).1.
    - rewrite Aliyun_move_ends, Aliyun_copy_ends. cbn zeta.
      destruct (oss.copy _ _ _ _ _) as [[r1|e1] rem1]; cbn [fst snd propagate]; [|done].
      rewrite Aliyun_delete_ends. unfold oss_of, after at 1 2, pulled.
      cbn [this world remote fst default Aliyun.oss]. fold (oss_of s).
      by destruct (oss.delete _ _ _ _).1. }
  split; [done|]. split.
  { intros location bucket. cbn [raised]. rewrite Aliyun_getUrl_ends.
    by destruct (truthy bucket). }
  intros x. rewrite Heq. clear Heq. destruct op; cbn [legacy_error].
  - by destruct (oss.head _ _ _ _).1.
  - by destruct (oss.put _ _ _ _ _).1.
  - by destruct (oss.delete _ _ _ _).1.
  - destruct (oss.get _ _ _).1 as [r|e]; [|done]. by destruct (get_other r).
  - by destruct (oss.getStream _ _ _ _).1.
  - by destruct (oss.putStream _ _ _ _ _).1.
  - done.
  - by destruct (oss.copy _ _ _ _ _).1.
  - destruct (oss.copy _ _ _ _ _) as [[r1|e1] rem1]; [|done].
    by destruct (oss.delete _ _ _ _).1.
Qed.

(** X8.  The legacy [exists] and [delete] have one answer: when they return,
    they return [true].  [exists] raises whenever the head request fails,
    with a 404 as with any other error, so a key that is not there is never
    answered with [false]. *)
Theorem legacy_exists_never_false location (params : option Obj) s :
  (Aliyun.exists_ location params s).1 ≠ Return false
  ∧ (Aliyun.delete location params s).1 ≠ Return false
  ∧ match (oss.head (oss_of s) location params (remote (world s))).1 with
    | Return _ => (Aliyun.exists_ location params s).1 = Return true
    | Throw e => (Aliyun.exists_ location params s).1 = Throw (Native e)
    end.
Proof.
  rewrite Aliyun_exists_ends, Aliyun_delete_ends. cbn [fst snd].
  split; [by destruct (oss.head _ _ _ _).1|].
  split; [by destruct (oss.delete _ _ _ _).1|].
  by destruct (oss.head _ _ _ _).1.
Qed.

(** X9.  In the legacy [copy(src, dest, destBucket, params)] neither
    [destBucket] nor [params] reaches the client: the call made, the state
    left and whether the copy returns are the same for any two choices of
    them.  [destBucket] only names the bucket in the URL that is returned,
    and without it the URL names the configured bucket, also when another
    bucket was pending for the source. *)
Theorem legacy_copy_destBucket_only_in_url src dest (destBucket destBucket' : JsVal)
    (params params' : option Obj) s :
  (Aliyun.copy src dest destBucket params s).2
  = (Aliyun.copy src dest destBucket' params' s).2
  ∧ returns (Aliyun.copy src dest destBucket params s).1
    = returns (Aliyun.copy src dest destBucket' params' s).1
  ∧ match (Aliyun.copy src dest destBucket params s).1 with
    | Return url =>
        url = Aliyun.url (options (oss_of s))
                (if truthy destBucket then destBucket else configured s) dest
    | Throw _ => True
    end.
Proof.
  rewrite !Aliyun_copy_ends. cbn [fst snd].
  split; [done|]. by destruct (oss.copy _ _ _ _ _).1.
Qed.

(** X10.  The URL [getUrl] returns carries the key as it was given, after
    the host: called on the same driver state with the same bucket argument,
    two keys get the same URL only when they are the same key. *)
Theorem legacy_getUrl_injective location location' (bucket : JsVal) s :
  (Aliyun.getUrl location bucket s).1 = (Aliyun.getUrl location' bucket s).1 →
  location = location'.
Proof.
  rewrite !Aliyun_getUrl_ends. unfold Aliyun.url.
  destruct (truthy bucket); cbn [fst]; intros Heq; by simplify_eq.
Qed.
End More_Aliyun.

(** ** Operations composed, over a service that keeps what it is given *)

Section Composition.
Context `{Sdk} `{Node}.
Implicit Types (s : State AliyunOSS.t) (location src dest : string).

(** A [move] that returned has copied and then deleted. *)
Lemma move_returned src dest s :
  returns (AliyunOSS.move src dest s).1 = true →
  ∃ r1 rem1 r2 rem2,
    oss.copy (driver_of s) dest src None (remote (world s)) = (Return r1, rem1)
    ∧ oss.delete (driver_of s) src None rem1 = (Return r2, rem2)
    ∧ this (AliyunOSS.move src dest s).2 = this s
    ∧ remote (world (AliyunOSS.move src dest s).2) = rem2.
Proof.
  rewrite AliyunOSS_move_ends, AliyunOSS_copy_ends.
  destruct (oss.copy _ _ _ _ _) as [[r1|e1] rem1] eqn:Hcopy; cbn [fst snd settle];
    [|discriminate].
  rewrite AliyunOSS_delete_ends. unfold driver_of, after at 1 2 3 4. cbn [this world remote].
  fold (driver_of s).
  destruct (oss.delete _ _ _ _) as [[r2|e2] rem2] eqn:Hdel; cbn [fst snd settle];
    [|discriminate].
  intros _. by exists r1, rem1, r2, rem2.
Qed.

(** X11.  Over a client whose [get] gives back what was [put], the adapter
    adds nothing and loses nothing: after [put(K, P)] of a buffer returned,
    [getBuffer(K)] returns content that is P, byte for byte, and [get(K)]
    returns P decoded as UTF-8. *)
Theorem put_getBuffer_round_trip location (P : Buffer) (options : option Obj) s :
  get_after_put →
  returns (AliyunOSS.put location (PutBuffer P) options s).1 = true →
  let s1 := (AliyunOSS.put location (PutBuffer P) options s).2 in
  (∃ r, (AliyunOSS.getBuffer location s1).1 = Return r ∧ ContentResponse.content r = P)
  ∧ (∃ r, (AliyunOSS.get location None s1).1 = Return r
          ∧ ContentResponse.content r = slice ops_utf8 P).
Proof.
  intros Hlaw. rewrite AliyunOSS_put_ends.
  destruct (oss.put _ _ _ _ _) as [[r|e] rem'] eqn:Hput; cbn [fst snd settle];
    [|discriminate].
  intros _. set (s1 := after _ _ _).
  destruct (Hlaw _ _ _ _ _ _ _ Hput) as (g & Hget & Hcontent).
  assert (Hb : (AliyunOSS.getBuffer location s1).1
               = Return {| ContentResponse.content := get_content g;
                           ContentResponse.raw := RawGet g |}).
  { rewrite AliyunOSS_getBuffer_ends. subst s1. unfold driver_of, after at 1 2.
    cbn [this world remote fst]. fold (driver_of s). by rewrite Hget. }
  split; [eexists; split; [exact Hb|done]|].
  rewrite AliyunOSS_get_ends.
  destruct (AliyunOSS.getBuffer location s1) as [c s2]. simpl in Hb. subst c.
  cbn [default ContentResponse.content]. rewrite toString_utf8. simpl.
  eexists. split; [done|]. simpl. by rewrite Hcontent.
Qed.

(** After a [move] that returned, the source does not exist. *)
Lemma move_source_gone src dest (options : option Obj) s :
  head_after_delete →
  returns (AliyunOSS.move src dest s).1 = true →
  ∃ r, (AliyunOSS.exists_ src options (AliyunOSS.move src dest s).2).1 = Return r
       ∧ ExistsResponse.exists_ r = false.
Proof.
  intros Hlaw Hm. destruct (move_returned _ _ _ Hm) as (r1 & rem1 & r2 & rem2 & _ & Hdel & Ht & Hr).
  rewrite AliyunOSS_exists_ends. unfold driver_of. rewrite Ht, Hr. fold (driver_of s).
  destruct (Hlaw _ _ _ _ _ _ options Hdel) as (e & -> & Hs). cbn [fst].
  rewrite decide_True by done. by eexists.
Qed.

(** X12.  Over a client whose copies and deletes show in [head], a [move]
    from one key to another that returned leaves [exists(dest)] true and
    [exists(src)] false. *)
Theorem move_puts_dest_removes_src src dest (options : option Obj) s :
  head_after_copy → head_after_delete → delete_keeps_others →
  src ≠ dest →
  returns (AliyunOSS.move src dest s).1 = true →
  let s2 := (AliyunOSS.move src dest s).2 in
  (∃ r, (AliyunOSS.exists_ dest options s2).1 = Return r ∧ ExistsResponse.exists_ r = true)
  ∧ (∃ r, (AliyunOSS.exists_ src options s2).1 = Return r ∧ ExistsResponse.exists_ r = false).
Proof.
  intros Hcopied Hdeleted Hkept Hne Hm s2. split; [|by apply move_source_gone].
  destruct (move_returned _ _ _ Hm) as (r1 & rem1 & r2 & rem2 & Hcopy & Hdel & Ht & Hr).
  subst s2. rewrite AliyunOSS_exists_ends. unfold driver_of. rewrite Ht, Hr.
  fold (driver_of s).
  pose proof (Hkept _ _ _ _ _ _ dest options Hdel (not_eq_sym Hne)
                (Hcopied _ _ _ _ _ _ _ options Hcopy)) as Hhead.
  destruct (oss.head _ _ _ _).1; [|discriminate]. by eexists.
Qed.

(** X13.  [move] does not look whether source and destination are the same
    key: over a client whose deletes show in [head], [move(K, K)] that
    returned has deleted K, and [exists(K)] is false afterwards. *)
Theorem move_onto_itself_loses_object location (options : option Obj) s :
  head_after_delete →
  returns (AliyunOSS.move location location s).1 = true →
  last (calls (world (AliyunOSS.move location location s).2))
  = Some (CallDelete (driver_of s) location None)
  ∧ ∃ r, (AliyunOSS.exists_ location options (AliyunOSS.move location location s).2).1 = Return r
         ∧ ExistsResponse.exists_ r = false.
Proof.
  intros Hlaw Hm. split; [|by apply move_source_gone].
  revert Hm. rewrite AliyunOSS_move_ends, AliyunOSS_copy_ends.
  destruct (oss.copy _ _ _ _ _).1; cbn [fst snd settle]; [|discriminate].
  rewrite AliyunOSS_delete_ends. intros _.
  destruct (settle _ _ _); unfold after; simpl; apply last_snoc.
Qed.
End Composition.

(** ** The drivers on the in-memory client *)

#[local] Existing Instances Mock.sdk Mock.node.

(** [move] of a source that cannot be deleted: the exception is the one
    [delete] raised, and the destination keeps the copy next to the source. *)
Example move_keeps_copy_when_delete_fails :
  (AliyunOSS.move "pinned.txt" "b.txt" Mock.adapter).1
  = Throw (Wrapped (UnknownException Mock.AccessDenied "AccessDeniedError" "pinned.txt"))
  ∧ Mock.objects (remote (world (AliyunOSS.move "pinned.txt" "b.txt" Mock.adapter).2)) !! "b.txt"
    = Some (String.list_byte_of_string "keep")
  ∧ Mock.objects (remote (world (AliyunOSS.move "pinned.txt" "b.txt" Mock.adapter).2)) !! "pinned.txt"
    = Some (String.list_byte_of_string "keep").
Proof. by vm_compute. Qed.

(** After a [move] that returned, the destination exists and the source
    does not. *)
Example move_then_exists :
  let s := (AliyunOSS.move "folder/test.txt" "b.txt" Mock.adapter).2 in
  returns (AliyunOSS.move "folder/test.txt" "b.txt" Mock.adapter).1 = true
  ∧ match (AliyunOSS.exists_ "b.txt" None s).1, (AliyunOSS.exists_ "folder/test.txt" None s).1 with
    | Return dest, Return src =>
        ExistsResponse.exists_ dest = true ∧ ExistsResponse.exists_ src = false
    | _, _ => False
    end.
Proof. by vm_compute. Qed.

(** [get] decodes what was stored; on a missing key it raises
    [FileNotFound]. *)
Example get_test_data :
  match (AliyunOSS.get "folder/test.txt" None Mock.adapter).1 with
  | Return r => ContentResponse.content r = "test-data"
  | Throw _ => False
  end
  ∧ (AliyunOSS.get "bad.txt" None Mock.adapter).1
    = Throw (Wrapped (FileNotFound Mock.NoSuchKey "bad.txt")).
Proof. by vm_compute. Qed.

(** [exists] on a key the service does not hold answers [false]. *)
Example exists_missing_key :
  (AliyunOSS.exists_ "some-file.jpg" None Mock.adapter).1
  = Return {| ExistsResponse.exists_ := false;
              ExistsResponse.raw := RawError Mock.NoSuchKey |}.
Proof. by vm_compute. Qed.

(** [put] of a buffer, then [getBuffer]: the same bytes; then [delete] and
    [exists]: gone. *)
Example put_getBuffer_delete :
  let bytes := String.list_byte_of_string "this-is-a-test" in
  let s1 := (AliyunOSS.put "dummy-file.txt" (PutBuffer bytes) None Mock.adapter).2 in
  let s2 := (AliyunOSS.delete "dummy-file.txt" None s1).2 in
  match (AliyunOSS.getBuffer "dummy-file.txt" s1).1, (AliyunOSS.exists_ "dummy-file.txt" None s2).1 with
  | Return r, Return e => ContentResponse.content r = bytes ∧ ExistsResponse.exists_ e = false
  | _, _ => False
  end.
Proof. by vm_compute. Qed.

(** [getSignedUrl] without options signs for 900 seconds, with
    [{ expiry: 60 }] for 60. *)
Example getSignedUrl_on_mock :
  match (AliyunOSS.getSignedUrl "a.txt" None Mock.adapter).1,
        (AliyunOSS.getSignedUrl "a.txt" (Some {[ "expiry" := VNum 60 ]}) Mock.adapter).1 with
  | Return r, Return r' =>
      SignedUrlResponse.signedUrl r = "http://oss.example/a.txt?Expires=900"
      ∧ SignedUrlResponse.signedUrl r' = "http://oss.example/a.txt?Expires=60"
  | _, _ => False
  end.
Proof. by vm_compute. Qed.

(** A name that is no encoding: [get] raises the runtime's [TypeError]. *)
Example get_bogus_encoding :
  (AliyunOSS.get "folder/test.txt" (Some "bogus") Mock.adapter).1
  = Throw (Native {| name := "TypeError"; status := None;
                     message := "Unknown encoding: bogus" |}).
Proof. by vm_compute. Qed.

(** The empty name is no encoding either; and of an object without bytes
    [get] returns the empty string whatever name it is given. *)
Example get_empty_name_and_empty_object :
  let s1 := (AliyunOSS.put "empty.txt" (PutBuffer []) None Mock.adapter).2 in
  (AliyunOSS.get "folder/test.txt" (Some "") Mock.adapter).1
  = Throw (Native {| name := "TypeError"; status := None;
                     message := "Unknown encoding: " |})
  ∧ match (AliyunOSS.get "empty.txt" (Some "bogus") s1).1 with
    | Return r => ContentResponse.content r = ""
    | Throw _ => False
    end.
Proof. by vm_compute. Qed.

(** The legacy driver after [bucket("other")]: [copy] reads from
    [/other/...] and reports the URL in the configured bucket; the next
    [getUrl] is back on the configured bucket. *)
Example legacy_copy_after_bucket :
  let s1 := (Aliyun.bucket (VStr "other") Mock.legacy).2 in
  let s2 := (Aliyun.copy "folder/test.txt" "b.txt" VUndefined None s1).2 in
  last (calls (world s2))
  = Some (CallCopy (oss_of Mock.legacy) "b.txt" "/other/folder/test.txt" None)
  ∧ (Aliyun.copy "folder/test.txt" "b.txt" VUndefined None s1).1
    = Return "http://media.oss-cn-hangzhou.aliyuncs.com/b.txt"
  ∧ (Aliyun.getUrl "a.txt" VUndefined s2).1
    = Return "http://media.oss-cn-hangzhou.aliyuncs.com/a.txt".
Proof. by vm_compute. Qed.

(** C2.  The legacy [Aliyun.exists] at a key that the service does not
    hold: it raises the client's 404 error as it came, where the claim, the
    method's own documentation ("Finds if a file exists or not",
    [Promise<Boolean>]) and [AliyunOSS.exists] have the answer [false]. *)
Lemma legacy_exists_raises_on_missing_key :
  Mock.objects (remote (world Mock.legacy)) !! "some-file.jpg" = None
  ∧ (Aliyun.exists_ "some-file.jpg" None Mock.legacy).1 = Throw (Native Mock.NoSuchKey)
  ∧ status Mock.NoSuchKey = Some 404.
Proof. by vm_compute. Qed.

(** C3, counterexample.  [getStream] on a missing key raises the client's
    error itself, not an exception of the taxonomy. *)
Lemma getStream_raises_unwrapped :
  (AliyunOSS.getStream "bad.txt" Mock.adapter).1 = Throw (Native Mock.NoSuchKey).
Proof. by vm_compute. Qed.

(** C3, witness: [get] on a missing key. *)
Lemma failures_are_wrapped_witness :
  guarded (Get "bad.txt" None) = true
  ∧ match (run (Get "bad.txt" None) Mock.adapter).1 with
    | Throw x =>
        ∃ e, client_error (Get "bad.txt" None) Mock.adapter = Some e
             ∧ x = Wrapped (taxonomy e (path_of (Get "bad.txt" None)))
    | Return _ => True
    end.
Proof.
  split; [reflexivity|].
  apply (failures_are_wrapped (Get "bad.txt" None) Mock.adapter). reflexivity.
Defined.

(** C4, counterexample.  A [move] that returns gives [{ raw: undefined }]. *)
Lemma move_raw_undefined :
  (AliyunOSS.move "folder/test.txt" "b.txt" Mock.adapter).1
  = Return {| Response.raw := RawUndefined |}.
Proof. by vm_compute. Qed.

(** C5, counterexample.  [AliyunOSS.copy] hands the client the bare source
    key, not [/bucket/key]. *)
Lemma copy_passes_bare_source :
  last (calls (world (AliyunOSS.copy "folder/test.txt" "b.txt" None Mock.adapter).2))
  = Some (CallCopy (driver_of Mock.adapter) "b.txt" "folder/test.txt" None)
  ∧ AliyunOSS._bucket (this Mock.adapter) = "media"
  ∧ "folder/test.txt" ≠ "/media/folder/test.txt".
Proof. by vm_compute. Qed.

(** C6, counterexample.  After [bucket("other")], two calls of the legacy
    [getUrl] on the same key, with nothing in between, give different
    strings, and the first one changes the driver's state. *)
Lemma legacy_getUrl_not_repeatable :
  let s1 := (Aliyun.bucket (VStr "other") Mock.legacy).2 in
  let s2 := (Aliyun.getUrl "a.txt" VUndefined s1).2 in
  (Aliyun.getUrl "a.txt" VUndefined s1).1
  = Return "http://other.oss-cn-hangzhou.aliyuncs.com/a.txt"
  ∧ (Aliyun.getUrl "a.txt" VUndefined s2).1
    = Return "http://media.oss-cn-hangzhou.aliyuncs.com/a.txt"
  ∧ pending s1 = VStr "other"
  ∧ pending s2 = VStr "media".
Proof. by vm_compute. Qed.

(** C7, witness: [get] of the stored file as ["utf8"]. *)
Lemma get_decodes_getBuffer_witness :
  getEncodingOps "utf8" = Some ops_utf8
  ∧ AliyunOSS.get "folder/test.txt" (Some "utf8") Mock.adapter
    = get_spec "folder/test.txt" ops_utf8 Mock.adapter.
Proof.
  split; [reflexivity|].
  apply (get_decodes_getBuffer "folder/test.txt" "utf8" ops_utf8 Mock.adapter).
  reflexivity.
Defined.

(** C9, counterexample.  The legacy [bucket("other")] changes the receiver,
    whose pending bucket was ["media"], and returns that receiver. *)
Lemma legacy_bucket_mutates_receiver :
  let s1 := (Aliyun.bucket (VStr "other") Mock.legacy).2 in
  pending Mock.legacy = VStr "media"
  ∧ pending s1 = VStr "other"
  ∧ (Aliyun.bucket (VStr "other") Mock.legacy).1 = Return (this s1).
Proof. by vm_compute. Qed.

(** C9, witness: the adapter made by the constructor. *)
Lemma bucket_returns_new_client_witness :
  constructed Mock.adapter
  ∧ this (AliyunOSS.bucket "other" Mock.adapter).2 = this Mock.adapter.
Proof.
  assert (Hc : constructed Mock.adapter) by (vm_compute; lia).
  split; [exact Hc|].
  exact (proj1 (proj2 (bucket_returns_new_client "other" Mock.adapter Hc))).
Defined.

(** ** The in-memory client keeps what it is given *)

Lemma Mock_get_after_put : get_after_put (H := Mock.sdk).
Proof.
  intros client name b options rem r rem' Hput. simpl in *.
  unfold Mock.store in Hput. simplify_eq. unfold Mock.fetch. simpl.
  rewrite lookup_insert_eq. by eexists.
Qed.

Lemma Mock_head_after_copy : head_after_copy (H := Mock.sdk).
Proof.
  intros client name sourceName options rem r rem' options' Hcopy. simpl in *.
  destruct (Mock.objects rem !! Mock.sourceKey sourceName); simplify_eq.
  unfold Mock.fetch. simpl. by rewrite lookup_insert_eq.
Qed.

Lemma Mock_head_after_delete : head_after_delete (H := Mock.sdk).
Proof.
  intros client name options rem r rem' options' Hdel. simpl in *.
  case_decide; simplify_eq. unfold Mock.fetch. simpl.
  rewrite lookup_delete_eq. by eexists.
Qed.

Lemma Mock_delete_keeps_others : delete_keeps_others (H := Mock.sdk).
Proof.
  intros client name options rem r rem' other options' Hdel Hne. simpl in *.
  case_decide; simplify_eq. unfold Mock.fetch. simpl.
  rewrite lookup_delete_ne by done. by destruct (Mock.objects rem !! other).
Qed.

(** X10, witness. *)
Lemma legacy_getUrl_injective_witness :
  (Aliyun.getUrl "a.txt" VUndefined Mock.legacy).1
  = (Aliyun.getUrl "a.txt" VUndefined Mock.legacy).1
  ∧ "a.txt" = "a.txt".
Proof.
  split; [reflexivity|].
  apply (legacy_getUrl_injective "a.txt" "a.txt" VUndefined Mock.legacy). reflexivity.
Defined.

(** X11, witness: the bytes of "this-is-a-test" under [dummy-file.txt]. *)
Lemma put_getBuffer_round_trip_witness :
  let P := String.list_byte_of_string "this-is-a-test" in
  let s1 := (AliyunOSS.put "dummy-file.txt" (PutBuffer P) None Mock.adapter).2 in
  returns (AliyunOSS.put "dummy-file.txt" (PutBuffer P) None Mock.adapter).1 = true
  ∧ ∃ r, (AliyunOSS.getBuffer "dummy-file.txt" s1).1 = Return r
         ∧ ContentResponse.content r = P.
Proof.
  intros P s1. split; [reflexivity|].
  exact (proj1 (put_getBuffer_round_trip "dummy-file.txt" P None Mock.adapter
                  Mock_get_after_put eq_refl)).
Defined.

(** X12, witness: moving the stored file to [b.txt]. *)
Lemma move_puts_dest_removes_src_witness :
  let s2 := (AliyunOSS.move "folder/test.txt" "b.txt" Mock.adapter).2 in
  "folder/test.txt" ≠ "b.txt"
  ∧ returns (AliyunOSS.move "folder/test.txt" "b.txt" Mock.adapter).1 = true
  ∧ ∃ r, (AliyunOSS.exists_ "b.txt" None s2).1 = Return r
         ∧ ExistsResponse.exists_ r = true.
Proof.
  intros s2. assert (Hne : "folder/test.txt" ≠ "b.txt") by discriminate.
  split; [exact Hne|]. split; [reflexivity|].
  exact (proj1 (move_puts_dest_removes_src "folder/test.txt" "b.txt" None Mock.adapter
                  Mock_head_after_copy Mock_head_after_delete Mock_delete_keeps_others
                  Hne eq_refl)).
Defined.

(** X13, witness: moving the stored file onto itself. *)
Lemma move_onto_itself_loses_object_witness :
  returns (AliyunOSS.move "folder/test.txt" "folder/test.txt" Mock.adapter).1 = true
  ∧ ∃ r, (AliyunOSS.exists_ "folder/test.txt" None
            (AliyunOSS.move "folder/test.txt" "folder/test.txt" Mock.adapter).2).1 = Return r
         ∧ ExistsResponse.exists_ r = false.
Proof.
  split; [reflexivity|].
  exact (proj2 (move_onto_itself_loses_object "folder/test.txt" None Mock.adapter
                  Mock_head_after_delete eq_refl)).
Defined.

(** X14, witness: the stored file read as ["bogus"]. *)
Lemma get_unknown_encoding_witness :
  getEncodingOps "bogus" = None
  ∧ ∃ r, (AliyunOSS.getBuffer "folder/test.txt" Mock.adapter).1 = Return r
         ∧ (AliyunOSS.get "folder/test.txt" (Some "bogus") Mock.adapter).1
           = Throw (Native {| name := "TypeError"; status := None;
                              message := "Unknown encoding: " +:+ "bogus" |}).
Proof.
  split; [reflexivity|]. eexists. split; [reflexivity|].
  exact (get_unknown_encoding "folder/test.txt" "bogus" Mock.adapter _ eq_refl eq_refl).
Defined.
